(** * autolens_workspace: prior-passing pipelines and weighted statistics

    A shallow embedding of the two pieces of logic the workspace owns: the
    weighted mean / standard deviation helper of
    [aggregator/scripts/tutorial_2_lens_models.py] and the [make_pipeline]
    functions under [pipelines/].

    Numbers.  The helper works on numpy [float64] arrays.  Here a float64 is
    an IEEE 754 binary64 number ([PrimFloat.float]): every addition,
    multiplication, division and square root rounds to nearest even, and
    the infinities, the two zeros and [nan] are values like any other.  Sums
    are added in the order in which numpy adds them. *)

From Stdlib Require Import List ZArith QArith Ascii String Floats.
From stdpp Require Import base option list functions strings.
Import ListNotations.

#[local] Set Warnings "-inexact-float".

(** ** Python exceptions *)

Inductive PyError : Type :=
| ZeroDivisionError   (* numpy: "Weights sum to zero, can't be normalized" *)
| TypeError           (* numpy: shapes of a and weights differ *)
| AttributeError      (* 'NoneType' object has no attribute 'append' *)
| FileNotFoundError.  (* a file to load is missing *)

(** The outcome of a call that touches no shared object. *)
Inductive result (A : Type) : Type :=
| Ok (a : A)
| Raise (e : PyError).
Arguments Ok {A} a.
Arguments Raise {A} e.

Definition rbind {A B} (r : result A) (k : A -> result B) : result B :=
  match r with
  | Ok a => k a
  | Raise e => Raise e
  end.

(** ** numpy, as far as the helper calls it

    numpy is not part of the workspace.  What follows is what numpy does
    on one-dimensional, contiguous [float64] arrays, written after the
    numpy release of the time of the workspace (1.17): [ndarray.sum] is
    the [add] reduction, which starts from the identity [0.0] and adds the
    pairwise sum of the whole array ([pairwise_sum_DOUBLE] in
    [loops.c.src]); [np.average] is [lib/function_base.py].  Later
    releases start the short loop of the pairwise sum from [-0.0]; that
    can change the sign of a sum that is zero and nothing else. *)

Module Numpy.
Local Open Scope float_scope.

(** The unrolled loop of [pairwise_sum_DOUBLE] for [8 <= n <= 128]: eight
    accumulators [r[0..7]] take the blocks of eight elements; when fewer
    than eight elements are left the accumulators are added up as
    [((r0 + r1) + (r2 + r3)) + ((r4 + r5) + (r6 + r7))] and the rest is
    added one element at a time. *)
Fixpoint accumulate (r0 r1 r2 r3 r4 r5 r6 r7 : float) (a : list float)
    : float :=
  match a with
  | x0 :: x1 :: x2 :: x3 :: x4 :: x5 :: x6 :: x7 :: a' =>
      accumulate (r0 + x0) (r1 + x1) (r2 + x2) (r3 + x3)
                 (r4 + x4) (r5 + x5) (r6 + x6) (r7 + x7) a'
  | _ =>
      fold_left PrimFloat.add a
        (((r0 + r1) + (r2 + r3)) + ((r4 + r5) + (r6 + r7)))
  end.

(** [pairwise_sum_DOUBLE] for [n <= PW_BLOCKSIZE]: below eight elements
    [res = 0.; for (i = 0; i < n; i++) res += a[i]], from eight elements on
    the unrolled loop. *)
Definition block_sum (a : list float) : float :=
  match a with
  | x0 :: x1 :: x2 :: x3 :: x4 :: x5 :: x6 :: x7 :: a' =>
      accumulate x0 x1 x2 x3 x4 x5 x6 x7 a'
  | _ => fold_left PrimFloat.add a 0
  end.

Definition PW_BLOCKSIZE : nat := 128.

(** [pairwise_sum_DOUBLE(a, n, stride)].  Above [PW_BLOCKSIZE] elements the
    array is cut at [n2 = n / 2; n2 -= n2 % 8] and the sums of the two
    parts are added.  The recursion is on a bound [depth] of the number of
    cuts; the number of elements is always enough. *)
Fixpoint pairwise_sum (depth : nat) (a : list float) : float :=
  let n := length a in
  if (n <=? PW_BLOCKSIZE)%nat then block_sum a
  else
    match depth with
    | O => block_sum a
    | S depth' =>
        let n2 := (n / 2)%nat in
        let n2 := (n2 - n2 mod 8)%nat in
        pairwise_sum depth' (take n2 a) + pairwise_sum depth' (drop n2 a)
    end.

(** [ndarray.sum()] of a one-dimensional array: the reduction starts from
    [0.0] and adds the pairwise sum of the elements. *)
Definition sum (a : list float) : float :=
  0 + pairwise_sum (length a) a.

(** [np.multiply(a, wgt)] on arrays of the same shape. *)
Fixpoint multiply (a wgt : list float) : list float :=
  match a, wgt with
  | x :: a', w :: wgt' => x * w :: multiply a' wgt'
  | _, _ => []
  end.

(** [a - x] of an array and a scalar. *)
Definition subtract (a : list float) (x : float) : list float :=
  map (fun v => v - x) a.

(** [a ** 2]: numpy squares with [np.square], one multiplication. *)
Definition square (a : list float) : list float :=
  map (fun v => v * v) a.

(** [np.average(a, weights=wgt)] for one-dimensional arrays, [axis=None]:
    a shape mismatch is a [TypeError]; [scl = wgt.sum()]; [scl == 0.0] is a
    [ZeroDivisionError]; otherwise the value is
    [np.multiply(a, wgt).sum() / scl]. *)
Definition average (a wgt : list float) : result float :=
  if Nat.eqb (length a) (length wgt) then
    let scl := sum wgt in
    if scl =? 0 then Raise ZeroDivisionError
    else Ok (sum (multiply a wgt) / scl)
  else Raise TypeError.

(** [np.sqrt] of a scalar: the IEEE square root, [nan] (with a
    RuntimeWarning, no exception) below zero. *)
Definition sqrt (x : float) : float := PrimFloat.sqrt x.

End Numpy.

(** ** aggregator/scripts/tutorial_2_lens_models.py *)

Module tutorial_2_lens_models.
Local Open Scope float_scope.

(** [weighted_mean_and_standard_deviation(values, weights)] on the
    contents of its arguments.  [np.asarray] copies a Python list of floats
    into a new array and hands an array back as it is; the arrays are
    one-dimensional and hold [float64].  (The same function on array
    objects with an identity is [objects.weighted_mean_and_standard_deviation]
    below.) *)
Definition weighted_mean_and_standard_deviation
    (values weights : list float) : result (float * float) :=
  rbind (Numpy.average values weights) (fun average =>
  rbind (Numpy.average (Numpy.square (Numpy.subtract values average)) weights)
        (fun variance =>
  Ok (average, Numpy.sqrt variance))).

(** What the script reads from one [MultiNestOutput] of the aggregator:
    the number of samples, the Einstein mass of the lens galaxy of the
    model instance of a sample, and the weight of a sample. *)
Record MultiNestOutput : Type := {
  total_samples : nat;
  sample_einstein_mass : nat -> float;
  sample_weight_from_sample_index : nat -> float
}.

(** The inner loop, [for sample_index in range(total_samples)]: one append
    to each of [sample_masses] and [sample_weights] per sample. *)
Definition collect_samples (multi_nest_output : MultiNestOutput)
    : list float * list float :=
  fold_left
    (fun '(sample_masses, sample_weights) sample_index =>
       (sample_masses ++ [sample_einstein_mass multi_nest_output sample_index],
        sample_weights
          ++ [sample_weight_from_sample_index multi_nest_output sample_index]))
    (seq 0 (total_samples multi_nest_output))
    ([], []).

(** The outer loop, started from the current contents of the two Python
    lists [einstein_masses] and [einstein_mass_errors].  Both appends of the
    body take [value]; [error] is bound and not used. *)
Fixpoint for_multi_nest_output (multi_nest_outputs : list MultiNestOutput)
    (einstein_masses einstein_mass_errors : list float)
    : result (list float * list float) :=
  match multi_nest_outputs with
  | [] => Ok (einstein_masses, einstein_mass_errors)
  | multi_nest_output :: rest =>
      let '(sample_masses, sample_weights) :=
        collect_samples multi_nest_output in
      rbind (weighted_mean_and_standard_deviation sample_masses sample_weights)
            (fun '(value, error) =>
      for_multi_nest_output rest
        (einstein_masses ++ [value])
        (einstein_mass_errors ++ [value]))
  end.

(** Lines 129-150: both lists start empty. *)
Definition einstein_mass_loop (multi_nest_outputs : list MultiNestOutput)
    : result (list float * list float) :=
  for_multi_nest_output multi_nest_outputs [] [].

(** [m] is the weighted mean the script computes for the output [o]. *)
Definition mean_of (o : MultiNestOutput) (m : float) : Prop :=
  Numpy.average (fst (collect_samples o)) (snd (collect_samples o)) = Ok m.

(** An output with the two samples (mass 1, weight 1), (mass 3, weight 1). *)
Definition two_sample_output : MultiNestOutput := {|
  total_samples := 2;
  sample_einstein_mass := fun i => match i with O => 1 | _ => 3 end;
  sample_weight_from_sample_index := fun _ => 1
|}.

(** An output without samples. *)
Definition empty_output : MultiNestOutput := {|
  total_samples := 0;
  sample_einstein_mass := fun _ => 0;
  sample_weight_from_sample_index := fun _ => 0
|}.

(** *** The helper on objects

    Python lists and numpy arrays are objects with an identity, and a
    caller keeps its references to the arguments it passes.  The memory
    holds the objects that exist: those below [next]. *)

Module objects.

Definition ref : Type := positive.

Inductive object : Type :=
| PyList (items : list float)      (* a Python list of floats *)
| ndarray (data : list float).     (* a one-dimensional float64 array *)

Definition elements (o : object) : list float :=
  match o with
  | PyList items => items
  | ndarray data => data
  end.

Record Memory : Type := {
  at_ref : ref -> object;
  next : ref
}.

Definition exists_in (m : Memory) (r : ref) : Prop := (r < next m)%positive.

(** [m'] has every object of [m], unchanged. *)
Definition keeps (m m' : Memory) : Prop :=
  (forall r, exists_in m r -> at_ref m' r = at_ref m r)
  /\ (next m <= next m')%positive.

(** A computation on the memory: its outcome and the memory it leaves. *)
Definition NP (A : Type) : Type := Memory -> result A * Memory.

Definition ret {A} (a : A) : NP A := fun m => (Ok a, m).

Definition bind {A B} (c : NP A) (k : A -> NP B) : NP B :=
  fun m =>
    match c m with
    | (Ok a, m') => k a m'
    | (Raise e, m') => (Raise e, m')
    end.

Definition lift {A} (r : result A) : NP A := fun m => (r, m).

(** A new array: the only write there is. *)
Definition new_array (data : list float) : NP ref :=
  fun m =>
    (Ok (next m),
     {| at_ref := <[next m := ndarray data]> (at_ref m);
        next := Pos.succ (next m) |}).

Definition read (a : ref) : NP (list float) :=
  fun m => (Ok (elements (at_ref m a)), m).

(** [np.asarray(x)]: an array is handed back as it is, a list is copied
    into a new array. *)
Definition asarray (x : ref) : NP ref :=
  fun m =>
    match at_ref m x with
    | ndarray _ => ret x m
    | PyList items => new_array items m
    end.

(** [np.average(a, weights=wgt)]: the products go into a new array. *)
Definition average (a wgt : ref) : NP float :=
  bind (read a) (fun a_data =>
  bind (read wgt) (fun wgt_data =>
  if Nat.eqb (length a_data) (length wgt_data) then
    let scl := Numpy.sum wgt_data in
    if scl =? 0 then lift (Raise ZeroDivisionError)
    else
      bind (new_array (Numpy.multiply a_data wgt_data)) (fun products =>
      bind (read products) (fun products_data =>
      ret (Numpy.sum products_data / scl)))
  else lift (Raise TypeError))).

(** [a - x] and [a ** 2]: each result is a new array. *)
Definition subtract (a : ref) (x : float) : NP ref :=
  bind (read a) (fun data => new_array (Numpy.subtract data x)).

Definition square (a : ref) : NP ref :=
  bind (read a) (fun data => new_array (Numpy.square data)).

(** Lines 113-123.  [values] and [weights] are rebound to what
    [np.asarray] returns. *)
Definition weighted_mean_and_standard_deviation (values weights : ref)
    : NP (float * float) :=
  bind (asarray values) (fun values =>
  bind (asarray weights) (fun weights =>
  bind (average values weights) (fun average' =>
  bind (subtract values average') (fun difference =>
  bind (square difference) (fun squares =>
  bind (average squares weights) (fun variance =>
  ret (average', Numpy.sqrt variance))))))).

(** A list [1, 3] at 1 and an array [1, 1] at 2. *)
Definition list_and_array : Memory := {|
  at_ref := fun r =>
    match r with
    | 1%positive => PyList [1; 3]
    | _ => ndarray [1; 1]
    end;
  next := 3%positive
|}.

End objects.

(** *** The contract of the specification, in its own words *)

(** [min(values)] and [max(values)] of a non-empty array ([0] for the empty
    one, which has neither): the first element, replaced by every later one
    that compares below, respectively above, it. *)
Definition minimum (values : list float) : float :=
  match values with
  | [] => 0
  | v :: values' =>
      fold_left (fun best x => if x <? best then x else best) values' v
  end.

Definition maximum (values : list float) : float :=
  match values with
  | [] => 0
  | v :: values' =>
      fold_left (fun best x => if best <? x then x else best) values' v
  end.

(** "the returned mean lies within [min(values), max(values)] and the
    returned deviation is non-negative" *)
Definition mean_in_range_and_deviation_nonneg (values weights : list float)
    : Prop :=
  exists mu sigma,
    weighted_mean_and_standard_deviation values weights = Ok (mu, sigma)
    /\ (minimum values <=? mu) = true
    /\ (mu <=? maximum values) = true
    /\ (0 <=? sigma) = true.

(** A deviation that is not a negative number: [nan], or at least zero. *)
Definition not_negative (sigma : float) : Prop :=
  is_nan sigma = true \/ (0 <=? sigma) = true.

(** The number a float stands for; the infinities and [nan] stand for
    none. *)
Definition exact (x : float) : option Q :=
  match Prim2SF x with
  | S754_zero _ => Some 0%Q
  | S754_finite s m e =>
      Some ((if s then -1 else 1) * inject_Z (Z.pos m) * 2 ^ e)%Q
  | _ => None
  end.

(** The textbook weighted sum [sum_i w_i * f v_i], in exact arithmetic. *)
Fixpoint exact_weighted_sum (f : Q -> Q) (v w : list Q) : Q :=
  match v, w with
  | vi :: v', wi :: w' => (wi * f vi + exact_weighted_sum f v' w')%Q
  | _, _ => 0%Q
  end.

(** [sum_i w_i], in exact arithmetic. *)
Definition exact_sum (w : list Q) : Q := fold_right Qplus 0%Q w.

(** [mu = (sum_i w_i * v_i) / (sum_i w_i)], in exact arithmetic. *)
Definition exact_textbook_mean (v w : list Q) : Q :=
  (exact_weighted_sum (fun x => x) v w / exact_sum w)%Q.

(** The exact numbers of an array without infinities and [nan]. *)
Fixpoint exact_all (a : list float) : option (list Q) :=
  match a with
  | [] => Some []
  | x :: a' =>
      match exact x, exact_all a' with
      | Some q, Some qs => Some (q :: qs)
      | _, _ => None
      end
  end.

(** The textbook formulas with every operation rounded to [float64]: the
    terms [w_i * f v_i], added up as numpy adds an array. *)
Fixpoint weighted_terms (f : float -> float) (v w : list float)
    : list float :=
  match v, w with
  | vi :: v', wi :: w' => wi * f vi :: weighted_terms f v' w'
  | _, _ => []
  end.

(** [mu = (sum_i w_i * v_i) / (sum_i w_i)] *)
Definition textbook_mean (v w : list float) : float :=
  Numpy.sum (weighted_terms (fun x => x) v w) / Numpy.sum w.

(** [(sum_i w_i * (v_i - mu)^2) / (sum_i w_i)] *)
Definition textbook_variance (v w : list float) : float :=
  let mu := textbook_mean v w in
  Numpy.sum (weighted_terms (fun x => (x - mu) * (x - mu)) v w)
  / Numpy.sum w.

End tutorial_2_lens_models.

(** ** The modelling library as the pipelines use it

    The pipelines call into PyAutoFit / PyAutoLens, which are not part of
    the workspace.  What a [make_pipeline] does with them is to build
    phases: a phase is recorded with its name, the list object it was given
    as [phase_folders], and every parameter binding of its model, each with
    the expression the value was read from. *)

Module AutoLens.
Local Open Scope string_scope.
Local Open Scope list_scope.

(** *** Python objects *)

Definition loc := positive.

(** The [phase_folders] argument: [None] or a reference to a list object. *)
Inductive pyval : Type :=
| PyNone
| PyList (l : loc).

(** *** Where a binding takes its value from *)

(** A result collection entry. *)
Inductive ResultBase : Type :=
| PhaseResult (id : nat)           (* phaseK.result, phaseK a phase object *)
| ResultsFromPhase (name : string) (* results.from_phase('name') *)
| ResultsLast                      (* results[-1] *)
| AfLast.                          (* af.last *)

Inductive Accessor : Type :=
| Attr (name : string)                        (* .name *)
| Call (name : string) (kwargs : list (string * Q)).   (* .name(k=v, ...) *)

Inductive Source : Type :=
| ModelClass (cls : string)     (* a profile class: priors from the config *)
| GaussianPrior (mean sigma : Q)           (* af.GaussianPrior(mean, sigma) *)
| FromResult (base : ResultBase) (path : list Accessor)
| CallerValue (name : string)   (* an argument or an attribute of [setup] *)
| SameModel (path : list string) (* a parameter of the model being built *)
| PyNoneValue.                                                   (* None *)

(** A binding: the attribute path that is set, and its source. *)
Definition Binding : Type := list string * Source.

(** A model under construction: its bindings in the order they are made. *)
Definition Model : Type := list Binding.

Definition of_source (s : Source) : Model := [([], s)].
Coercion of_source : Source >-> Model.

(** ["a.b.c"] as the path [a; b; c]. *)
Fixpoint split_on_dot (s : string) : list string :=
  match s with
  | EmptyString => [EmptyString]
  | String c s' =>
      if Ascii.eqb c "."%char then EmptyString :: split_on_dot s'
      else match split_on_dot s' with
           | [] => [String c EmptyString]
           | w :: ws => String c w :: ws
           end
  end.

Definition attrs (path : string) : list Accessor :=
  map Attr (split_on_dot path).

Definition prefix (path : list string) (m : Model) : Model :=
  map (fun '(p, s) => (path ++ p, s)) m.

(** A keyword argument [k=v]. *)
Definition kw (k : string) (v : Model) : string * Model := (k, v).
Notation "k =: v" := (kw k v) (at level 70, no associativity).

(** [dict(k1=m1, k2=m2, ...)], and keyword arguments in general. *)
Definition dict (kwargs : list (string * Model)) : Model :=
  concat (map (fun '(k, m) => prefix [k] m) kwargs).

(** [al.GalaxyModel(redshift=..., k1=m1, ...)] *)
Definition GalaxyModel (kwargs : list (string * Model)) : Model :=
  dict kwargs.

(** [af.PriorModel(cls)] *)
Definition PriorModel (cls : string) : Model := ModelClass cls.

(** [m.path = value] on a model variable [m]. *)
Definition setattr (m : Model) (path : string) (value : Model) : Model :=
  m ++ prefix (split_on_dot path) value.

(** [m.path], read from the model variable named [m]. *)
Definition getattr (m : string) (path : string) : Source :=
  SameModel (m :: split_on_dot path).

(** [self.path = value] in a [pass_priors]. *)
Definition assign (path : string) (value : Source) : Binding :=
  (split_on_dot path, value).

(** *** Phases and pipelines *)

(** [phase.extend_with_...(k=v, ...)] *)
Record Extension : Type := {
  method : string;
  kwargs : list (string * bool)
}.

Record Phase : Type := {
  phase_id : nat;                 (* position in the order of construction *)
  phase_name : string;
  phase_folders : pyval;
  model : Model;                  (* keyword arguments of the constructor *)
  pass_priors : list Binding;     (* body of the class's pass_priors *)
  modify_image : option Source;   (* what modify_image subtracts *)
  extension : option Extension
}.

(** A phase class: [al.PhaseImaging] itself, or a local subclass with its
    own [pass_priors] and [modify_image]. *)
Record PhaseClass : Type := {
  class_pass_priors : list Binding;
  class_modify_image : option Source
}.

Definition PhaseImaging : PhaseClass :=
  {| class_pass_priors := []; class_modify_image := None |}.

Record Pipeline : Type := {
  pipeline_name : string;
  phases : list Phase
}.

(** [al.PipelineDataset(name, *phases)] *)
Definition PipelineDataset (name : string) (phases : list Phase) : Pipeline :=
  {| pipeline_name := name; phases := phases |}.

(** [pipeline.PipelineImaging(name, *phases)], its name in the older
    interface. *)
Definition PipelineImaging (name : string) (phases : list Phase) : Pipeline :=
  PipelineDataset name phases.

(** [phaseK.result] *)
Definition result_of (p : Phase) : ResultBase := PhaseResult (phase_id p).

(** [base.path] *)
Definition read (base : ResultBase) (path : string) : Source :=
  FromResult base (attrs path).

(** The extended phase stands for the phase it wraps: same name, same
    place in the order of construction. *)
Definition extend_with (p : Phase) (method : string)
    (kwargs : list (string * bool)) : Phase :=
  {| phase_id := phase_id p;
     phase_name := phase_name p;
     phase_folders := phase_folders p;
     model := model p;
     pass_priors := pass_priors p;
     modify_image := modify_image p;
     extension := Some {| method := method; kwargs := kwargs |} |}.

(** The pipeline setup object of the advanced pipelines, by the attributes
    the pipelines read: [setup.general], [setup.source], [setup.light]. *)
Record GeneralSetup : Type := {
  general_tag : string;                 (* setup.general.tag *)
  hyper_galaxies : bool;
  hyper_image_sky : bool;
  hyper_background_noise : bool
}.

Record SourceSetup : Type := {
  source_tag : string;                  (* setup.source.tag *)
  tag_no_inversion : string;
  no_shear : bool;
  lens_light_centre : option (Q * Q);
  lens_light_bulge_only : bool;
  align_light_mass_centre : bool;
  lens_mass_centre : option (Q * Q)
}.

Record LightSetup : Type := {
  light_tag : string;                   (* setup.light.tag *)
  disk_as_sersic : bool;
  align_bulge_disk_centre : bool;
  align_bulge_disk_axis_ratio : bool;
  align_bulge_disk_phi : bool
}.

Record PipelineSetup : Type := {
  general : GeneralSetup;
  source : SourceSetup;
  light : LightSetup
}.

(** *** Calls: list objects, the phases built so far, exceptions *)

Record State : Type := {
  heap : loc -> list string;     (* contents of the list objects *)
  constructed : list Phase       (* phases built since the call began *)
}.

Inductive outcome (A : Type) : Type :=
| Returns (a : A) (s : State)
| Raises (e : PyError) (s : State).
Arguments Returns {A} a s.
Arguments Raises {A} e s.

Definition M (A : Type) : Type := State -> outcome A.

Definition ret {A} (a : A) : M A := fun s => Returns a s.

Definition bind {A B} (m : M A) (k : A -> M B) : M B :=
  fun s =>
    match m s with
    | Returns a s' => k a s'
    | Raises e s' => Raises e s'
    end.

Declare Scope py_scope.
Delimit Scope py_scope with py.
Notation "x <- m ;; k" := (bind m (fun x => k))
  (at level 100, m at next level, right associativity) : py_scope.
Notation "m ;; k" := (bind m (fun _ => k))
  (at level 100, right associativity) : py_scope.

(** [v.append(x)]: in place on a list, AttributeError on [None]. *)
Definition list_append (v : pyval) (x : string) : M unit :=
  fun s =>
    match v with
    | PyNone => Raises AttributeError s
    | PyList l =>
        Returns tt {| heap := <[l := heap s l ++ [x]]> (heap s);
                      constructed := constructed s |}
    end.

(** A call into the library that may touch list objects and nothing else
    of the state. *)
Definition on_heap {A}
    (f : (loc -> list string) -> A * (loc -> list string)) : M A :=
  fun s =>
    let '(a, h) := f (heap s) in
    Returns a {| heap := h; constructed := constructed s |}.

(** [cls(phase_name=..., phase_folders=..., **kwargs)] *)
Definition construct (cls : PhaseClass) (phase_name : string)
    (phase_folders : pyval) (kwargs : list (string * Model)) : M Phase :=
  fun s =>
    let p := {| phase_id := length (constructed s);
                phase_name := phase_name;
                phase_folders := phase_folders;
                model := dict kwargs;
                pass_priors := class_pass_priors cls;
                modify_image := class_modify_image cls;
                extension := None |} in
    Returns p {| heap := heap s; constructed := constructed s ++ [p] |}.

(** A call observed from its start: no phase built yet. *)
Definition call {A} (m : M A) (h : loc -> list string) : outcome A :=
  m {| heap := h; constructed := [] |}.

End AutoLens.

(** ** pipelines/simple/lens_sie__source_inversion.py

    In every [make_pipeline] below the settings [sub_size],
    [signal_to_noise_limit], [bin_up_factor], ... are handed to the phases
    as they come and bind no model parameter; they and the optimizer
    settings are left out. *)

Module simple_lens_sie__source_inversion.
Import AutoLens.
Local Open Scope string_scope.
Local Open Scope list_scope.
Local Open Scope py_scope.

Section make_pipeline.

(** [al.pipeline_tagging.pipeline_tag_from_pipeline_settings], by its
    arguments [include_shear], [pixelization], [regularization]. *)
Variable pipeline_tag_from_pipeline_settings :
  bool -> string -> string -> string.

Definition make_pipeline
    (include_shear : bool)
    (pixelization regularization : string)
    (phase_folders : pyval) : M Pipeline :=
  let pipeline_name := "pipeline__sie__source_inversion" in
  let pipeline_tag :=
    pipeline_tag_from_pipeline_settings include_shear pixelization
      regularization in
  list_append phase_folders pipeline_name ;;
  list_append phase_folders pipeline_tag ;;
  let shear : Model :=
    if include_shear then ModelClass "al.mp.ExternalShear"
    else PyNoneValue in
  let mass := PriorModel "al.mp.EllipticalIsothermal" in
  let mass := setattr mass "centre_0" (GaussianPrior 0.0 0.1) in
  let mass := setattr mass "centre_1" (GaussianPrior 0.0 0.1) in
  phase1 <- construct PhaseImaging "phase_1__source_sersic" phase_folders
    ["galaxies" =: dict
       ["lens" =: GalaxyModel
          ["redshift" =: CallerValue "redshift_lens";
           "mass" =: mass;
           "shear" =: shear];
        "source" =: GalaxyModel
          ["redshift" =: CallerValue "redshift_source";
           "light" =: ModelClass "al.lp.EllipticalSersic"]]] ;;
  phase2 <- construct PhaseImaging "phase_2__source_inversion_initialization"
    phase_folders
    ["galaxies" =: dict
       ["lens" =: GalaxyModel
          ["redshift" =: CallerValue "redshift_lens";
           "mass" =: read (result_of phase1) "instance.galaxies.lens.mass";
           "shear" =: read (result_of phase1) "instance.galaxies.lens.shear"];
        "source" =: GalaxyModel
          ["redshift" =: CallerValue "redshift_source";
           "pixelization" =: ModelClass pixelization;
           "regularization" =: ModelClass regularization]]] ;;
  let phase2 := extend_with phase2 "extend_with_inversion_phase" [] in
  phase3 <- construct PhaseImaging "phase_3__inversion" phase_folders
    ["galaxies" =: dict
       ["lens" =: GalaxyModel
          ["redshift" =: CallerValue "redshift_lens";
           "mass" =: read (result_of phase1) "model.galaxies.lens.mass";
           "shear" =: read (result_of phase1) "model.galaxies.lens.shear"];
        "source" =: GalaxyModel
          ["redshift" =: CallerValue "redshift_source";
           "pixelization" =:
             read (result_of phase2) "model.galaxies.source.pixelization";
           "regularization" =:
             read (result_of phase2) "model.galaxies.source.regularization"]]] ;;
  ret (PipelineDataset pipeline_name [phase1; phase2; phase3]).

End make_pipeline.
End simple_lens_sie__source_inversion.

(** ** pipelines/simple/lens_sersic_sie_shear_source_sersic.py *)

Module simple_lens_sersic_sie_shear_source_sersic.
Import AutoLens.
Local Open Scope string_scope.
Local Open Scope list_scope.
Local Open Scope py_scope.

Section make_pipeline.

(** [tag.pipeline_name_from_name_and_settings(pipeline_name=...)] *)
Variable pipeline_name_from_name_and_settings : string -> string.

(** [path_util.phase_folders_from_phase_folders_and_pipeline_name], a
    library function of the phase folders and the pipeline name that hands
    back the phase folders to use; it may write to list objects. *)
Variable phase_folders_from_phase_folders_and_pipeline_name :
  pyval -> string -> (loc -> list string) -> pyval * (loc -> list string).

Definition make_pipeline (phase_folders : pyval) : M Pipeline :=
  let pipeline_name := "pl__lens_sersic_sie_shear_source_x1_sersic" in
  let pipeline_name := pipeline_name_from_name_and_settings pipeline_name in
  phase_folders <- on_heap
    (phase_folders_from_phase_folders_and_pipeline_name phase_folders
       pipeline_name) ;;
  let LensPhase := {|
    class_pass_priors :=
      [assign "lens_galaxies.lens.light.centre_0" (GaussianPrior 0.0 0.1);
       assign "lens_galaxies.lens.light.centre_1" (GaussianPrior 0.0 0.1)];
    class_modify_image := None |} in
  phase1 <- construct LensPhase "phase_1_lens_sersic" phase_folders
    ["lens_galaxies" =: dict
       ["lens" =: GalaxyModel
          ["redshift" =: CallerValue "redshift_lens";
           "light" =: ModelClass "lp.EllipticalSersic"]]] ;;
  let LensSubtractedPhase := {|
    class_pass_priors :=
      [assign "lens_galaxies.lens.mass.centre_0"
         (read (ResultsFromPhase "phase_1_lens_sersic")
            "variable.lens_galaxies.lens.light.centre_0");
       assign "lens_galaxies.lens.mass.centre_1"
         (read (ResultsFromPhase "phase_1_lens_sersic")
            "variable.lens_galaxies.lens.light.centre_1")];
    class_modify_image := Some (read ResultsLast "unmasked_model_image") |} in
  phase2 <- construct LensSubtractedPhase
    "phase_2_lens_sie_shear_source_sersic" phase_folders
    ["lens_galaxies" =: dict
       ["lens" =: GalaxyModel
          ["redshift" =: CallerValue "redshift_lens";
           "mass" =: ModelClass "mp.EllipticalIsothermal";
           "shear" =: ModelClass "mp.ExternalShear"]];
     "source_galaxies" =: dict
       ["source" =: GalaxyModel
          ["redshift" =: CallerValue "redshift_source";
           "light" =: ModelClass "lp.EllipticalSersic"]]] ;;
  let LensSourcePhase := {|
    class_pass_priors :=
      [assign "lens_galaxies.lens.light"
         (read (ResultsFromPhase "phase_1_lens_sersic")
            "variable.lens_galaxies.lens.light");
       assign "lens_galaxies.lens.mass"
         (read (ResultsFromPhase "phase_2_lens_sie_shear_source_sersic")
            "variable.lens_galaxies.lens.mass");
       assign "lens_galaxies.lens.shear"
         (read (ResultsFromPhase "phase_2_lens_sie_shear_source_sersic")
            "variable.lens_galaxies.lens.shear");
       assign "source_galaxies.source"
         (read (ResultsFromPhase "phase_2_lens_sie_shear_source_sersic")
            "variable.source_galaxies.source")];
    class_modify_image := None |} in
  phase3 <- construct LensSourcePhase
    "phase_3_lens_sersic_sie_shear_source_sersic" phase_folders
    ["lens_galaxies" =: dict
       ["lens" =: GalaxyModel
          ["redshift" =: CallerValue "redshift_lens";
           "light" =: ModelClass "lp.EllipticalSersic";
           "mass" =: ModelClass "mp.EllipticalIsothermal";
           "shear" =: ModelClass "mp.ExternalShear"]];
     "source_galaxies" =: dict
       ["source" =: GalaxyModel
          ["redshift" =: CallerValue "redshift_source";
           "light" =: ModelClass "lp.EllipticalSersic"]]] ;;
  ret (PipelineImaging pipeline_name [phase1; phase2; phase3]).

End make_pipeline.
End simple_lens_sersic_sie_shear_source_sersic.

(** ** pipelines/with_lens_light/inversion/from_initialize/lens_sersic_sie_shear_source_inversion.py *)

Module with_lens_light_lens_sersic_sie_shear_source_inversion.
Import AutoLens.
Local Open Scope string_scope.
Local Open Scope list_scope.
Local Open Scope py_scope.

(** The header comment of the file describes Phase 1, Phase 2, Phase 3. *)
Definition documented_phases : nat := 3.

Section make_pipeline.

(** [tag.pipeline_name_from_name_and_settings(pipeline_name=...,
    fix_lens_light=...)] *)
Variable pipeline_name_from_name_and_settings : string -> bool -> string.

Variable phase_folders_from_phase_folders_and_pipeline_name :
  pyval -> string -> (loc -> list string) -> pyval * (loc -> list string).

Definition make_pipeline (pl_fix_lens_light : bool) (phase_folders : pyval)
    : M Pipeline :=
  let pipeline_name := "pipeline_inv__lens_sersic_sie_shear_source_inversion" in
  let pipeline_name :=
    pipeline_name_from_name_and_settings pipeline_name pl_fix_lens_light in
  phase_folders <- on_heap
    (phase_folders_from_phase_folders_and_pipeline_name phase_folders
       pipeline_name) ;;
  let InversionPhase := {|
    class_pass_priors :=
      [assign "lens_galaxies.lens"
         (read (ResultsFromPhase "phase_3_lens_sersic_sie_shear_source_sersic")
            "constant.lens_galaxies.lens")];
    class_modify_image := None |} in
  phase1 <- construct InversionPhase "phase_1_initialize_inversion"
    phase_folders
    ["lens_galaxies" =: dict
       ["lens" =: GalaxyModel
          ["redshift" =: CallerValue "redshift_lens";
           "light" =: ModelClass "lp.EllipticalSersic";
           "mass" =: ModelClass "mp.EllipticalIsothermal";
           "shear" =: ModelClass "mp.ExternalShear"]];
     "source_galaxies" =: dict
       ["source" =: GalaxyModel
          ["redshift" =: CallerValue "redshift_source";
           "pixelization" =: ModelClass "pix.AdaptiveMagnification";
           "regularization" =: ModelClass "reg.Constant"]]] ;;
  let InversionPhase := {|
    class_pass_priors :=
      [assign "lens_galaxies.lens"
         (read (ResultsFromPhase "phase_3_lens_sersic_sie_shear_source_sersic")
            "variable.lens_galaxies.lens")]
      ++ (if pl_fix_lens_light then
            [assign "lens_galaxies.lens.light"
               (read (ResultsFromPhase
                        "phase_3_lens_sersic_sie_shear_source_sersic")
                  "constant.lens_galaxies.lens.light")]
          else [])
      ++ [assign "source_galaxies.source.pixelization"
            (read (ResultsFromPhase "phase_1_initialize_inversion")
               "constant.source_galaxies.source.pixelization");
          assign "source_galaxies.source.regularization"
            (read (ResultsFromPhase "phase_1_initialize_inversion")
               "variable.source_galaxies.source.regularization")];
    class_modify_image := None |} in
  phase2 <- construct InversionPhase
    "phase_2_lens_sersic_sie_shear_source_inversion" phase_folders
    ["lens_galaxies" =: dict
       ["lens" =: GalaxyModel
          ["redshift" =: CallerValue "redshift_lens";
           "light" =: ModelClass "lp.EllipticalSersic";
           "mass" =: ModelClass "mp.EllipticalIsothermal";
           "shear" =: ModelClass "mp.ExternalShear"]];
     "source_galaxies" =: dict
       ["source" =: GalaxyModel
          ["redshift" =: CallerValue "redshift_source";
           "pixelization" =: ModelClass "pix.AdaptiveMagnification";
           "regularization" =: ModelClass "reg.Constant"]]] ;;
  let InversionPhase := {|
    class_pass_priors :=
      [assign "lens_galaxies.lens"
         (read (ResultsFromPhase
                  "phase_2_lens_sersic_sie_shear_source_inversion")
            "constant.lens_galaxies.lens");
       assign "source_galaxies.source"
         (read (ResultsFromPhase
                  "phase_2_lens_sersic_sie_shear_source_inversion")
            "variable.source_galaxies.source")];
    class_modify_image := None |} in
  phase3 <- construct InversionPhase
    "phase_3_lens_sersic_sie_shear_refine_source_inversion" phase_folders
    ["lens_galaxies" =: dict
       ["lens" =: GalaxyModel
          ["redshift" =: CallerValue "redshift_lens";
           "light" =: ModelClass "lp.EllipticalSersic";
           "mass" =: ModelClass "mp.EllipticalIsothermal";
           "shear" =: ModelClass "mp.ExternalShear"]];
     "source_galaxies" =: dict
       ["source" =: GalaxyModel
          ["redshift" =: CallerValue "redshift_source";
           "pixelization" =: ModelClass "pix.AdaptiveMagnification";
           "regularization" =: ModelClass "reg.Constant"]]] ;;
  ret (PipelineImaging pipeline_name [phase1; phase2]).

End make_pipeline.
End with_lens_light_lens_sersic_sie_shear_source_inversion.

(** ** pipelines/hyper/with_lens_light/sersic/inversion/from_initialize/lens_sersic_sie_shear_source_inversion.py *)

Module hyper_lens_sersic_sie_shear_source_inversion.
Import AutoLens.
Local Open Scope string_scope.
Local Open Scope list_scope.
Local Open Scope py_scope.

Section make_pipeline.

(** [tag.pipeline_name_from_name_and_settings(pipeline_name=...,
    fix_lens_light=..., pixelization=..., regularization=...)] *)
Variable pipeline_name_from_name_and_settings :
  string -> bool -> string -> string -> string.

Definition make_pipeline
    (pl_fix_lens_light pl_hyper_galaxies : bool)
    (pl_pixelization pl_regularization : string)
    (phase_folders : pyval) : M Pipeline :=
  let pipeline_name := "pipeline_inv__lens_sersic_sie_shear_source_inversion" in
  let pipeline_name :=
    pipeline_name_from_name_and_settings pipeline_name pl_fix_lens_light
      pl_pixelization pl_regularization in
  list_append phase_folders pipeline_name ;;
  let InversionPhase := {|
    class_pass_priors :=
      [assign "lens_galaxies.lens"
         (read (ResultsFromPhase "phase_3_lens_sersic_sie_shear_source_sersic")
            "constant.lens_galaxies.lens")]
      ++ (if pl_hyper_galaxies then
            [assign "lens_galaxies.lens.hyper_galaxy"
               (read (ResultsFromPhase
                        "phase_3_lens_sersic_sie_shear_source_sersic")
                  "hyper_galaxy.constant.lens_galaxies.lens.hyper_galaxy");
             assign "source_galaxies.source.hyper_galaxy"
               (read (ResultsFromPhase
                        "phase_3_lens_sersic_sie_shear_source_sersic")
                  "hyper_galaxy.constant.source_galaxies.source.hyper_galaxy")]
          else []);
    class_modify_image := None |} in
  phase1 <- construct InversionPhase "phase_1_initialize_inversion"
    phase_folders
    ["lens_galaxies" =: dict
       ["lens" =: GalaxyModel
          ["redshift" =: CallerValue "redshift_lens";
           "light" =: ModelClass "lp.EllipticalSersic";
           "mass" =: ModelClass "mp.EllipticalIsothermal";
           "shear" =: ModelClass "mp.ExternalShear"]];
     "source_galaxies" =: dict
       ["source" =: GalaxyModel
          ["redshift" =: CallerValue "redshift_source";
           "pixelization" =: ModelClass pl_pixelization;
           "regularization" =: ModelClass pl_regularization]]] ;;
  let phase1 :=
    extend_with phase1 "extend_with_hyper_and_inversion_phases"
      [("hyper_galaxy", pl_hyper_galaxies); ("inversion", true)] in
  let InversionPhase := {|
    class_pass_priors :=
      [assign "lens_galaxies.lens"
         (read (ResultsFromPhase "phase_3_lens_sersic_sie_shear_source_sersic")
            "variable.lens_galaxies.lens")]
      ++ (if pl_fix_lens_light then
            [assign "lens_galaxies.lens.light"
               (read (ResultsFromPhase
                        "phase_3_lens_sersic_sie_shear_source_sersic")
                  "constant.lens_galaxies.lens.light")]
          else [])
      ++ [assign "source_galaxies.source"
            (read (ResultsFromPhase "phase_1_initialize_inversion")
               "inversion.constant.source_galaxies.source")]
      ++ (if pl_hyper_galaxies then
            [assign "lens_galaxies.lens.hyper_galaxy"
               (read (ResultsFromPhase "phase_1_initialize_inversion")
                  "hyper_galaxy.constant.lens_galaxies.lens.hyper_galaxy");
             assign "source_galaxies.source.hyper_galaxy"
               (read (ResultsFromPhase "phase_1_initialize_inversion")
                  "hyper_galaxy.constant.source_galaxies.source.hyper_galaxy")]
          else []);
    class_modify_image := None |} in
  phase2 <- construct InversionPhase
    "phase_2_lens_sersic_sie_shear_source_inversion" phase_folders
    ["lens_galaxies" =: dict
       ["lens" =: GalaxyModel
          ["redshift" =: CallerValue "redshift_lens";
           "light" =: ModelClass "lp.EllipticalSersic";
           "mass" =: ModelClass "mp.EllipticalIsothermal";
           "shear" =: ModelClass "mp.ExternalShear"]];
     "source_galaxies" =: dict
       ["source" =: GalaxyModel
          ["redshift" =: CallerValue "redshift_source";
           "pixelization" =: ModelClass pl_pixelization;
           "regularization" =: ModelClass pl_regularization]]] ;;
  let phase2 :=
    extend_with phase2 "extend_with_hyper_and_inversion_phases"
      [("hyper_galaxy", pl_hyper_galaxies); ("inversion", true)] in
  ret (PipelineImaging pipeline_name [phase1; phase2]).

End make_pipeline.
End hyper_lens_sersic_sie_shear_source_inversion.

(** ** pipelines/advanced/with_lens_light/source/parametric/lens_bulge_disk_sie__source_sersic.py *)

Module advanced_lens_bulge_disk_sie__source_sersic.
Import AutoLens.
Local Open Scope string_scope.
Local Open Scope list_scope.
Local Open Scope py_scope.

Definition make_pipeline (setup : PipelineSetup) (phase_folders : pyval)
    : M Pipeline :=
  let pipeline_name := "pipeline_source__parametric__bulge_disk" in
  list_append phase_folders pipeline_name ;;
  list_append phase_folders (general_tag (general setup)) ;;
  list_append phase_folders (tag_no_inversion (source setup)) ;;
  let shear : Model :=
    if negb (no_shear (source setup)) then ModelClass "al.mp.ExternalShear"
    else PyNoneValue in
  (* PHASE 1 *)
  let lens := GalaxyModel
    ["redshift" =: CallerValue "redshift_lens";
     "bulge" =: ModelClass "al.lp.EllipticalSersic";
     "disk" =: ModelClass "al.lp.EllipticalExponential"] in
  let lens := setattr lens "bulge.centre" (getattr "lens" "disk.centre") in
  let lens :=
    match lens_light_centre (source setup) with
    | Some _ =>
        let lens :=
          setattr lens "bulge.centre"
            (CallerValue "setup.source.lens_light_centre") in
        setattr lens "disk.centre"
          (CallerValue "setup.source.lens_light_centre")
    | None => lens
    end in
  let lens :=
    if lens_light_bulge_only (source setup) then
      setattr lens "disk" PyNoneValue
    else lens in
  phase1 <- construct PhaseImaging "phase_1__lens_bulge_disk" phase_folders
    ["galaxies" =: dict ["lens" =: lens]] ;;
  let phase1 :=
    extend_with phase1 "extend_with_multiple_hyper_phases"
      [("hyper_galaxy", hyper_galaxies (general setup));
       ("include_background_sky", hyper_image_sky (general setup));
       ("include_background_noise", hyper_background_noise (general setup))] in
  (* PHASE 2 *)
  let mass := PriorModel "al.mp.EllipticalIsothermal" in
  let mass :=
    if align_light_mass_centre (source setup) then
      setattr mass "centre"
        (read (result_of phase1) "instance.galaxies.lens.bulge.centre")
    else
      setattr mass "centre"
        (FromResult (result_of phase1)
           (Call "model_absolute" [("a", 0.1%Q)]
            :: attrs "galaxies.lens.bulge.centre")) in
  let mass :=
    match lens_mass_centre (source setup) with
    | Some _ =>
        setattr mass "centre" (CallerValue "setup.source.lens_mass_centre")
    | None => mass
    end in
  phase2 <- construct PhaseImaging "phase_2__lens_sie__source_sersic"
    phase_folders
    ["galaxies" =: dict
       ["lens" =: GalaxyModel
          ["redshift" =: CallerValue "redshift_lens";
           "bulge" =: read (result_of phase1) "instance.galaxies.lens.bulge";
           "disk" =: read (result_of phase1) "instance.galaxies.lens.disk";
           "mass" =: mass;
           "shear" =: shear;
           "hyper_galaxy" =:
             read (result_of phase1)
               "hyper_combined.instance.optional.galaxies.lens.hyper_galaxy"];
        "source" =: GalaxyModel
          ["redshift" =: CallerValue "redshift_source";
           "light" =: ModelClass "al.lp.EllipticalSersic";
           "hyper_galaxy" =:
             read (result_of phase1)
               "hyper_combined.instance.optional.galaxies.source.hyper_galaxy"]];
     "hyper_image_sky" =:
       read (result_of phase1)
         "hyper_combined.instance.optional.hyper_image_sky";
     "hyper_background_noise" =:
       read (result_of phase1)
         "hyper_combined.instance.optional.hyper_background_noise"] ;;
  let phase2 :=
    extend_with phase2 "extend_with_multiple_hyper_phases"
      [("hyper_galaxy", hyper_galaxies (general setup));
       ("include_background_sky", hyper_image_sky (general setup));
       ("include_background_noise", hyper_background_noise (general setup))] in
  (* PHASE 3 *)
  let lens := GalaxyModel
    ["redshift" =: CallerValue "redshift_lens";
     "bulge" =: ModelClass "al.lp.EllipticalSersic";
     "disk" =: ModelClass "al.lp.EllipticalExponential";
     "mass" =: read (result_of phase2) "instance.galaxies.lens.mass";
     "shear" =: read (result_of phase2) "instance.galaxies.lens.shear";
     "hyper_galaxy" =:
       read (result_of phase2)
         "hyper_combined.instance.optional.galaxies.lens.hyper_galaxy"] in
  let lens := setattr lens "bulge.centre" (getattr "lens" "disk.centre") in
  let lens :=
    match lens_light_centre (source setup) with
    | Some _ =>
        let lens :=
          setattr lens "bulge.centre"
            (CallerValue "setup.source.lens_light_centre") in
        setattr lens "disk.centre"
          (CallerValue "setup.source.lens_light_centre")
    | None => lens
    end in
  let lens :=
    if lens_light_bulge_only (source setup) then
      setattr lens "disk" PyNoneValue
    else lens in
  phase3 <- construct PhaseImaging
    "phase_3__lens_bulge_disk_sie__source_fixed" phase_folders
    ["galaxies" =: dict
       ["lens" =: lens;
        "source" =: GalaxyModel
          ["redshift" =: CallerValue "redshift_source";
           "light" =: read (result_of phase2) "instance.galaxies.source.light";
           "hyper_galaxy" =:
             read (result_of phase2)
               "hyper_combined.instance.optional.galaxies.source.hyper_galaxy"]];
     "hyper_image_sky" =:
       read (result_of phase2)
         "hyper_combined.instance.optional.hyper_image_sky";
     "hyper_background_noise" =:
       read (result_of phase2)
         "hyper_combined.instance.optional.hyper_background_noise"] ;;
  let phase3 :=
    extend_with phase3 "extend_with_multiple_hyper_phases"
      [("hyper_galaxy", hyper_galaxies (general setup));
       ("include_background_sky", hyper_image_sky (general setup));
       ("include_background_noise", hyper_background_noise (general setup))] in
  (* PHASE 4 *)
  phase4 <- construct PhaseImaging
    "phase_4__lens_bulge_disk_sie__source_sersic" phase_folders
    ["galaxies" =: dict
       ["lens" =: GalaxyModel
          ["redshift" =: CallerValue "redshift_lens";
           "bulge" =: read (result_of phase3) "model.galaxies.lens.bulge";
           "disk" =: read (result_of phase3) "model.galaxies.lens.disk";
           "mass" =: read (result_of phase2) "model.galaxies.lens.mass";
           "shear" =: read (result_of phase2) "model.galaxies.lens.shear";
           "hyper_galaxy" =:
             read (result_of phase3)
               "hyper_combined.instance.optional.galaxies.lens.hyper_galaxy"];
        "source" =: GalaxyModel
          ["redshift" =: CallerValue "redshift_source";
           "light" =: read (result_of phase2) "model.galaxies.source.light";
           "hyper_galaxy" =:
             read (result_of phase3)
               "hyper_combined.instance.optional.galaxies.source.hyper_galaxy"]];
     "hyper_image_sky" =:
       read (result_of phase3)
         "hyper_combined.instance.optional.hyper_image_sky";
     "hyper_background_noise" =:
       read (result_of phase3)
         "hyper_combined.instance.optional.hyper_background_noise"] ;;
  let phase4 :=
    extend_with phase4 "extend_with_multiple_hyper_phases"
      [("hyper_galaxy", hyper_galaxies (general setup));
       ("include_background_sky", hyper_image_sky (general setup));
       ("include_background_noise", hyper_background_noise (general setup))] in
  ret (PipelineDataset pipeline_name [phase1; phase2; phase3; phase4]).

End advanced_lens_bulge_disk_sie__source_sersic.

(** ** pipelines/advanced/with_lens_light/light/gaussians/lens_gaussians_sie__source.py *)

Module advanced_lens_gaussians_sie__source.
Import AutoLens.
Local Open Scope string_scope.
Local Open Scope list_scope.
Local Open Scope py_scope.

Section make_pipeline.

(** [setup.set_light_type(light_type=...)], a method of the setup object
    that updates it. *)
Variable set_light_type : PipelineSetup -> string -> PipelineSetup.

Definition make_pipeline (setup : PipelineSetup) (phase_folders : pyval)
    : M Pipeline :=
  let pipeline_name := "pipeline_light__gaussians" in
  let setup := set_light_type setup "gaussians" in
  list_append phase_folders pipeline_name ;;
  list_append phase_folders (general_tag (general setup)) ;;
  list_append phase_folders (source_tag (source setup)) ;;
  list_append phase_folders (light_tag (light setup)) ;;
  let hyper_galaxy : Model :=
    if hyper_galaxies (general setup) then
      let hyper_galaxy : Model :=
        read AfLast "hyper_combined.instance.galaxies.lens.hyper_galaxy" in
      setattr hyper_galaxy "noise_factor"
        (read AfLast
           "hyper_combined.model.galaxies.lens.hyper_galaxy.noise_factor")
    else PyNoneValue in
  let disk :=
    if disk_as_sersic (light setup) then PriorModel "al.lp.EllipticalSersic"
    else PriorModel "al.lp.EllipticalExponential" in
  let lens := GalaxyModel
    ["redshift" =: CallerValue "redshift_lens";
     "bulge" =: ModelClass "al.lp.EllipticalSersic";
     "disk" =: disk;
     "mass" =: read AfLast "instance.galaxies.lens.mass";
     "shear" =: read AfLast "instance.galaxies.lens.shear";
     "hyper_galaxy" =: hyper_galaxy] in
  let lens :=
    if align_bulge_disk_centre (light setup) then
      setattr lens "bulge.centre" (getattr "lens" "disk.centre")
    else lens in
  let lens :=
    if align_bulge_disk_axis_ratio (light setup) then
      setattr lens "bulge.axis_ratio" (getattr "lens" "disk.axis_ratio")
    else lens in
  let lens :=
    if align_bulge_disk_phi (light setup) then
      setattr lens "bulge.phi" (getattr "lens" "disk.phi")
    else lens in
  phase1 <- construct PhaseImaging "phase_1__lens_bulge_disk_sie__source"
    phase_folders
    ["galaxies" =: dict
       ["lens" =: lens;
        "source" =: read AfLast "instance.galaxies.source"];
     "hyper_image_sky" =:
       read AfLast "hyper_combined.instance.optional.hyper_image_sky";
     "hyper_background_noise" =:
       read AfLast "hyper_combined.instance.optional.hyper_background_noise"] ;;
  let phase1 :=
    extend_with phase1 "extend_with_multiple_hyper_phases"
      [("hyper_galaxy", hyper_galaxies (general setup));
       ("inversion", true);
       ("include_background_sky", hyper_image_sky (general setup));
       ("include_background_noise", hyper_background_noise (general setup))] in
  ret (PipelineDataset pipeline_name [phase1]).

End make_pipeline.
End advanced_lens_gaussians_sie__source.

(** ** Properties of prior passing *)

Module PriorPassing.
Import AutoLens.
Local Open Scope string_scope.
Local Open Scope list_scope.

(** Every binding of a phase: constructor arguments, then [pass_priors]. *)
Definition bindings (p : Phase) : list Binding :=
  model p ++ pass_priors p.

Definition base_of (s : Source) : list ResultBase :=
  match s with
  | FromResult base _ => [base]
  | _ => []
  end.

(** The results a phase reads: in its bindings and in [modify_image]. *)
Definition reads (p : Phase) : list ResultBase :=
  concat (map (fun b : Binding => base_of (snd b)) (bindings p))
  ++ match modify_image p with
     | Some s => base_of s
     | None => []
     end.








(** *** The forms of a binding *)

Inductive Form : Type :=
| FixedToResult        (* .instance / .constant of a result *)
| AdjustableFromResult (* .model / .variable / .model_absolute(...) *)
| DefaultPrior         (* a profile class, priors left to the config *)
| ExplicitPrior        (* a prior written out in the pipeline *)
| CallerSupplied       (* an argument, or an attribute of setup *)
| Aligned              (* tied to another parameter of the same model *)
| Removed              (* None *)
| OtherResultRead.     (* read from a result in no known way *)

Definition accessor_form (a : Accessor) : option Form :=
  match a with
  | Attr name =>
      if String.eqb name "instance" || String.eqb name "constant"
      then Some FixedToResult
      else if String.eqb name "model" || String.eqb name "variable"
      then Some AdjustableFromResult
      else None
  | Call name _ =>
      if String.eqb name "model_absolute" then Some AdjustableFromResult
      else None
  end.

(** The first accessor of the path that says how the result is read. *)
Fixpoint path_form (path : list Accessor) : Form :=
  match path with
  | [] => OtherResultRead
  | a :: path' =>
      match accessor_form a with
      | Some f => f
      | None => path_form path'
      end
  end.

Definition form_of (s : Source) : Form :=
  match s with
  | ModelClass _ => DefaultPrior
  | GaussianPrior _ _ => ExplicitPrior
  | FromResult _ path => path_form path
  | CallerValue _ => CallerSupplied
  | SameModel _ => Aligned
  | PyNoneValue => Removed
  end.

(** "one of exactly three forms" *)
Definition three_forms (f : Form) : Prop :=
  f = FixedToResult \/ f = AdjustableFromResult \/ f = DefaultPrior.

(** What the pipelines do: the three forms, and four more for values
    that come from no result. *)
Definition seven_forms (f : Form) : Prop :=
  three_forms f
  \/ f = ExplicitPrior \/ f = CallerSupplied \/ f = Aligned \/ f = Removed.

Definition formb (f : Form) : bool :=
  match f with
  | OtherResultRead => false
  | _ => true
  end.

Definition all_bindingsb (cs : list Phase) : bool :=
  forallb (fun p => forallb (fun b : Binding => formb (form_of (snd b)))
                      (bindings p)) cs.

(** Every binding of every phase in [cs] satisfies [P] on its form. *)
Definition all_bindings (P : Form -> Prop) (cs : list Phase) : Prop :=
  Forall (fun p => Forall (fun b : Binding => P (form_of (snd b)))
                     (bindings p)) cs.

(** *** Checks on the outcome of a call *)


Definition forms_checkb (p : Pipeline) (s : State) : bool :=
  all_bindingsb (constructed s).

Fixpoint same_names (a b : list string) : bool :=
  match a, b with
  | [], [] => true
  | x :: a', y :: b' => String.eqb x y && same_names a' b'
  | _, _ => false
  end.

(** The phases of the pipeline object carry the names [passed], the
    phases built the names [built]. *)
Definition names_are (passed built : list string) (p : Pipeline)
    (s : State) : Prop :=
  map phase_name (phases p) = passed
  /\ map phase_name (constructed s) = built.

Definition names_areb (passed built : list string) (p : Pipeline)
    (s : State) : bool :=
  same_names (map phase_name (phases p)) passed
  && same_names (map phase_name (constructed s)) built.

End PriorPassing.

(** ** runners/hyper/runner_hyper_galaxies_no_lens_light.py *)

Module runner_hyper_galaxies_no_lens_light.
Local Open Scope string_scope.

Section script.

(** The library objects and calls of the script.  Every call may raise. *)
Variables CCDData Mask : Type.
Variable shape : CCDData -> nat * nat.          (* ccd_data.shape *)
Variable pixel_scale_of : CCDData -> Q.         (* ccd_data.pixel_scale *)
Variable Config : string -> string -> result unit.
Variable make_and_return_path_from_path_and_folder_names :
  string -> list string -> result string.
Variable load_ccd_data_from_fits :
  string -> string -> string -> Q -> result CCDData.
Variable Mask_circular : nat * nat -> Q -> Q -> result Mask.
Variable plot_ccd_subplot : CCDData -> Mask -> result unit.

(** Lines 126-163: the pipeline settings, the three [make_pipeline] calls
    of pipeline modules that are not in the workspace sources, their sum
    and [pipeline.run(data=ccd_data)]. *)
Variable make_and_run_pipelines : CCDData -> result unit.

(** [os.path.dirname(os.path.realpath(__file__))] with ["/../../"]. *)
Variable workspace_path : string.

Definition script : result unit :=
  rbind (Config (workspace_path ++ "config") (workspace_path ++ "output"))
        (fun _ =>
  rbind (make_and_return_path_from_path_and_folder_names workspace_path
           ["data"]) (fun data_path =>
  let data_type := "example" in
  let data_name := "lens_sie__source_sersic" in
  let pixel_scale := 0.1%Q in
  rbind (make_and_return_path_from_path_and_folder_names data_path
           [data_type; data_name]) (fun data_path =>
  rbind (load_ccd_data_from_fits
           (data_path ++ "image.fits")
           (data_path ++ "psf.fits")
           (data_path ++ "noise_map.fits")
           pixel_scale) (fun ccd_data =>
  rbind (Mask_circular (shape ccd_data) (pixel_scale_of ccd_data) 3.0%Q)
        (fun mask =>
  rbind (plot_ccd_subplot ccd_data mask) (fun _ =>
  make_and_run_pipelines ccd_data)))))).

End script.
End runner_hyper_galaxies_no_lens_light.

(** ** Calls in a row, and what a phase ends up with *)

Module Chains.
Import AutoLens PriorPassing.
Local Open Scope string_scope.
Local Open Scope list_scope.
Local Open Scope py_scope.

(** [b], read by the [n]-th phase built, is found among the phases built
    before it: nothing is left to a pipeline that ran earlier. *)
Definition resolves_in_chain (cs : list Phase) (n : nat) (b : ResultBase)
    : Prop :=
  match b with
  | PhaseResult id =>
      exists m q, (m < n)%nat /\ cs !! m = Some q /\ phase_id q = id
  | ResultsFromPhase name =>
      exists m q, (m < n)%nat /\ cs !! m = Some q /\ phase_name q = name
  | ResultsLast => (0 < n)%nat
  | AfLast => False
  end.

(** A chain of phases that needs no result from outside. *)
Definition self_contained (cs : list Phase) : Prop :=
  forall n p b,
    cs !! n = Some p -> In b (reads p) -> resolves_in_chain cs n b.

Definition resolves_in_chainb (earlier : list Phase) (b : ResultBase)
    : bool :=
  match b with
  | PhaseResult id => existsb (fun q => Nat.eqb (phase_id q) id) earlier
  | ResultsFromPhase name =>
      existsb (fun q => String.eqb (phase_name q) name) earlier
  | ResultsLast => negb (Nat.eqb (length earlier) 0)
  | AfLast => false
  end.

Fixpoint self_contained_from (earlier later : list Phase) : bool :=
  match later with
  | [] => true
  | p :: later' =>
      forallb (resolves_in_chainb earlier) (reads p)
      && self_contained_from (earlier ++ [p]) later'
  end.



Fixpoint distinct_names (names : list string) : bool :=
  match names with
  | [] => true
  | x :: names' =>
      negb (existsb (String.eqb x) names') && distinct_names names'
  end.

(** *** Reading a parameter back *)

Fixpoint is_prefix (a b : list string) : bool :=
  match a, b with
  | [], _ => true
  | x :: a', y :: b' => String.eqb x y && is_prefix a' b'
  | _ :: _, [] => false
  end.

(** What [path] holds after the bindings [bs] were made in order: the
    source of the last binding made to [path] or to an object [path] lies
    in (an assignment to [lens] replaces [lens.light] with it). *)
Definition effective (bs : list Binding) (path : list string)
    : option Source :=
  fold_left
    (fun acc (b : Binding) =>
       if is_prefix (fst b) path then Some (snd b) else acc)
    bs None.

(** The same for the [k]-th phase built, [pass_priors] after the
    constructor arguments. *)
Definition effective_source_at (k : nat) (path : string) (cs : list Phase)
    : option Source :=
  match cs !! k with
  | Some p => effective (bindings p) (split_on_dot path)
  | None => None
  end.


(** *** Two calls in a row *)

(** Two pipelines made one after the other, as the runners do before they
    add them: here the simple lens-light pipeline and the inversion
    pipeline that starts from its third phase. *)
Definition initialize_then_inversion
    (namer : string -> string)
    (folders : pyval -> string -> (loc -> list string)
               -> pyval * (loc -> list string))
    (namer' : string -> bool -> string)
    (folders' : pyval -> string -> (loc -> list string)
                -> pyval * (loc -> list string))
    (pl_fix_lens_light : bool)
    (phase_folders phase_folders' : pyval) : M (Pipeline * Pipeline) :=
  pipeline_initialize <-
    simple_lens_sersic_sie_shear_source_sersic.make_pipeline namer folders
      phase_folders ;;
  pipeline_inversion <-
    with_lens_light_lens_sersic_sie_shear_source_inversion.make_pipeline
      namer' folders' pl_fix_lens_light phase_folders' ;;
  ret (pipeline_initialize, pipeline_inversion).

(** The same [make_pipeline] called twice with one and the same
    [phase_folders] object. *)
Definition make_pipeline_twice
    (tagger : bool -> string -> string -> string)
    (include_shear : bool) (pixelization regularization : string)
    (phase_folders : pyval) : M (Pipeline * Pipeline) :=
  first <-
    simple_lens_sie__source_inversion.make_pipeline tagger include_shear
      pixelization regularization phase_folders ;;
  second <-
    simple_lens_sie__source_inversion.make_pipeline tagger include_shear
      pixelization regularization phase_folders ;;
  ret (first, second).

(** *** What a switch leaves alone *)

(** [path] lies in none of the objects [roots]. *)
Definition outside (roots : list (list string)) (path : list string) : bool :=
  forallb (fun root => negb (is_prefix root path)) roots.

(** For every phase built, the bindings made outside [roots], in the order
    they are made. *)
Definition bindings_outside (roots : list string) (cs : list Phase)
    : list (list Binding) :=
  map (fun q =>
         List.filter
           (fun b : Binding => outside (map split_on_dot roots) (fst b))
           (bindings q))
      cs.




End Chains.

(** * Proofs *)

(** ** float64 arithmetic *)

Section float_arithmetic.
Local Open Scope float_scope.

(** Rounding keeps the sign it is given. *)
Lemma binary_round_aux_sign (prec emax : Z) (sx : bool) (mx ex : Z)
    (lx : SpecFloat.location) :
  match SpecFloat.binary_round_aux prec emax sx mx ex lx with
  | S754_zero s | S754_infinity s | S754_finite s _ _ => s = sx
  | S754_nan => True
  end.
Proof.
  unfold SpecFloat.binary_round_aux.
  destruct (SpecFloat.shr_fexp prec emax mx ex lx) as [mrs' e'].
  destruct (SpecFloat.shr_fexp prec emax _ e' SpecFloat.loc_Exact)
    as [mrs'' e''].
  destruct (SpecFloat.shr_m mrs'') as [| m | m]; [reflexivity | | exact I].
  destruct (Z.leb e'' (emax - prec)); reflexivity.
Qed.

Lemma SFsqrt_not_negative (s : spec_float) :
  SFeqb (SFsqrt prec emax s) (SFsqrt prec emax s) = false
  \/ SFleb (S754_zero false) (SFsqrt prec emax s) = true.
Proof.
  destruct s as [sz | [] | | [] m e]; simpl; auto.
  destruct (SFsqrt_core_binary prec emax (Z.pos m) e) as [[mz ez] lz].
  pose proof (binary_round_aux_sign prec emax false mz ez lz) as Hsign.
  destruct (SpecFloat.binary_round_aux prec emax false mz ez lz)
    as [s | s | | s m' e']; try subst s; auto.
Qed.

(** A square root is [nan] or at least zero. *)
Lemma sqrt_not_negative (x : float) :
  is_nan (PrimFloat.sqrt x) = true \/ (0 <=? PrimFloat.sqrt x) = true.
Proof.
  unfold is_nan.
  rewrite FloatAxioms.eqb_spec, FloatAxioms.leb_spec, FloatAxioms.sqrt_spec.
  change (Prim2SF 0) with (S754_zero false). unfold SF64sqrt.
  destruct (SFsqrt_not_negative (Prim2SF x)) as [H | H]; rewrite H; auto.
Qed.

Lemma SFmul_comm (x y : spec_float) :
  SFmul prec emax x y = SFmul prec emax y x.
Proof.
  destruct x as [sx | sx | | sx mx ex], y as [sy | sy | | sy my ey]; simpl;
    try reflexivity; try (rewrite xorb_comm; reflexivity).
  rewrite xorb_comm, Pos.mul_comm, Z.add_comm. reflexivity.
Qed.

(** Rounded multiplication commutes. *)
Lemma mul_comm (x y : float) : x * y = y * x.
Proof.
  apply Prim2SF_inj. rewrite !FloatAxioms.mul_spec. apply SFmul_comm.
Qed.

Lemma positive_is_not_zero (x : float) :
  (0 <? x) = true -> (x =? 0) = false.
Proof.
  rewrite FloatAxioms.ltb_spec, FloatAxioms.eqb_spec.
  change (Prim2SF 0) with (S754_zero false).
  destruct (Prim2SF x) as [s | [] | | [] m e]; cbv; congruence.
Qed.

(** *** The bound on the cuts of the pairwise sum *)

Lemma pairwise_sum_block (depth : nat) (a : list float) :
  (length a <= Numpy.PW_BLOCKSIZE)%nat ->
  Numpy.pairwise_sum depth a = Numpy.block_sum a.
Proof.
  intros Hn. apply Nat.leb_le in Hn.
  destruct depth; simpl; rewrite Hn; reflexivity.
Qed.

Lemma pairwise_sum_cut (depth : nat) (a : list float) :
  (Numpy.PW_BLOCKSIZE < length a)%nat ->
  Numpy.pairwise_sum (S depth) a
  = Numpy.pairwise_sum depth
      (take (length a / 2 - (length a / 2) mod 8) a)
    + Numpy.pairwise_sum depth
        (drop (length a / 2 - (length a / 2) mod 8) a).
Proof.
  intros Hn. apply Nat.leb_gt in Hn. simpl. rewrite Hn. reflexivity.
Qed.

(** Every bound that is at least the number of elements gives the same
    sum: [Numpy.sum] never runs out of cuts. *)
Lemma pairwise_sum_depth (depth : nat) :
  forall depth' a,
    (length a <= depth)%nat -> (length a <= depth')%nat ->
    Numpy.pairwise_sum depth a = Numpy.pairwise_sum depth' a.
Proof.
  induction depth as [| depth IH]; intros depth' a Hd Hd'.
  - rewrite !pairwise_sum_block by (unfold Numpy.PW_BLOCKSIZE; lia).
    reflexivity.
  - destruct (Nat.le_gt_cases (length a) Numpy.PW_BLOCKSIZE) as [Hn | Hn].
    + rewrite !pairwise_sum_block by exact Hn. reflexivity.
    + unfold Numpy.PW_BLOCKSIZE in Hn.
      destruct depth' as [| depth']; [lia |].
      rewrite !pairwise_sum_cut by exact Hn.
      pose proof (Nat.div_mod_eq (length a) 2) as Hhalf.
      pose proof (Nat.mod_upper_bound (length a) 2) as Hrest.
      pose proof (Nat.mod_upper_bound (length a / 2) 8) as Hrest8.
      set (n2 := (length a / 2 - (length a / 2) mod 8)%nat) in *.
      assert (Hn2 : (0 < n2 < length a)%nat) by (unfold n2; lia).
      f_equal; apply IH; rewrite ?length_take, ?length_drop; lia.
Qed.

Lemma sum_with_any_bound (depth : nat) (a : list float) :
  (length a <= depth)%nat ->
  Numpy.sum a = 0 + Numpy.pairwise_sum depth a.
Proof.
  intros Hd. unfold Numpy.sum. f_equal.
  apply pairwise_sum_depth; [lia | exact Hd].
Qed.

End float_arithmetic.

(** ** The weighted statistics helper *)

Section weighted_statistics.
Import tutorial_2_lens_models.
Local Open Scope float_scope.

Lemma average_returns (a wgt : list float) :
  length a = length wgt -> (Numpy.sum wgt =? 0) = false ->
  Numpy.average a wgt = Ok (Numpy.sum (Numpy.multiply a wgt) / Numpy.sum wgt).
Proof.
  intros Hlen Hscl. unfold Numpy.average.
  rewrite Hlen, Nat.eqb_refl, Hscl. reflexivity.
Qed.

Lemma average_zero_weights (a wgt : list float) :
  length a = length wgt -> (Numpy.sum wgt =? 0) = true ->
  Numpy.average a wgt = Raise ZeroDivisionError.
Proof.
  intros Hlen Hscl. unfold Numpy.average.
  rewrite Hlen, Nat.eqb_refl, Hscl. reflexivity.
Qed.

Lemma multiply_terms (f : float -> float) (v w : list float) :
  Numpy.multiply (map f v) w = weighted_terms f v w.
Proof.
  revert w. induction v as [| vi v IH]; intros [| wi w]; simpl;
    try reflexivity.
  rewrite IH, mul_comm. reflexivity.
Qed.

Lemma multiply_products (v w : list float) :
  Numpy.multiply v w = weighted_terms (fun x => x) v w.
Proof.
  rewrite <- (multiply_terms (fun x => x)), map_id. reflexivity.
Qed.

Lemma square_subtract (values : list float) (average : float) :
  Numpy.square (Numpy.subtract values average)
  = map (fun x => (x - average) * (x - average)) values.
Proof.
  unfold Numpy.square, Numpy.subtract. rewrite map_map. reflexivity.
Qed.

(** The helper on well-shaped input with a usable weight sum. *)
Lemma helper_returns (values weights : list float) :
  length values = length weights -> (Numpy.sum weights =? 0) = false ->
  weighted_mean_and_standard_deviation values weights
  = Ok (textbook_mean values weights,
        Numpy.sqrt (textbook_variance values weights)).
Proof.
  intros Hlen Hscl. unfold weighted_mean_and_standard_deviation.
  rewrite (average_returns _ _ Hlen Hscl). simpl.
  rewrite average_returns
    by (unfold Numpy.square, Numpy.subtract; rewrite ?length_map; assumption).
  simpl. rewrite square_subtract, multiply_terms, multiply_products.
  reflexivity.
Qed.

Lemma helper_type_error (values weights : list float) :
  length values <> length weights ->
  weighted_mean_and_standard_deviation values weights = Raise TypeError.
Proof.
  intros Hlen. unfold weighted_mean_and_standard_deviation, Numpy.average.
  apply Nat.eqb_neq in Hlen. rewrite Hlen. reflexivity.
Qed.

Lemma helper_zero_division (values weights : list float) :
  length values = length weights -> (Numpy.sum weights =? 0) = true ->
  weighted_mean_and_standard_deviation values weights
  = Raise ZeroDivisionError.
Proof.
  intros Hlen Hz. unfold weighted_mean_and_standard_deviation.
  rewrite (average_zero_weights _ _ Hlen Hz). reflexivity.
Qed.

(** The three outcomes of the helper, by shape and weight sum. *)
Lemma helper_cases (values weights : list float) :
  (length values <> length weights
   /\ weighted_mean_and_standard_deviation values weights = Raise TypeError)
  \/ (length values = length weights
      /\ (Numpy.sum weights =? 0) = true
      /\ weighted_mean_and_standard_deviation values weights
         = Raise ZeroDivisionError)
  \/ (length values = length weights
      /\ (Numpy.sum weights =? 0) = false
      /\ weighted_mean_and_standard_deviation values weights
         = Ok (textbook_mean values weights,
               Numpy.sqrt (textbook_variance values weights))).
Proof.
  destruct (Nat.eq_dec (length values) (length weights)) as [Hlen | Hlen].
  - destruct (Numpy.sum weights =? 0) eqn:Hz.
    + right. left. auto using helper_zero_division.
    + right. right. auto using helper_returns.
  - left. auto using helper_type_error.
Qed.

(** C1, as amended: for non-empty value and weight arrays of equal length
    whose weight sum, as numpy adds it, is positive,
    weighted_mean_and_standard_deviation returns a pair whose standard
    deviation is never a negative number: it is nan or at least zero.
    Nothing is said of the mean, which float64 rounding, overflow or a
    negative weight take out of [min(values), max(values)], see the lemma
    after this one. *)
Theorem deviation_is_never_negative (values weights : list float) :
  values <> [] ->
  length values = length weights ->
  (0 <? Numpy.sum weights) = true ->
  exists mu sigma,
    weighted_mean_and_standard_deviation values weights = Ok (mu, sigma)
    /\ not_negative sigma.
Proof.
  intros _ Hlen Hpos.
  exists (textbook_mean values weights),
         (Numpy.sqrt (textbook_variance values weights)).
  split.
  - apply helper_returns; [exact Hlen |].
    apply positive_is_not_zero. exact Hpos.
  - apply sqrt_not_negative.
Qed.

Lemma deviation_is_never_negative_witness :
  exists mu sigma,
    weighted_mean_and_standard_deviation [1; 3] [1; 1] = Ok (mu, sigma)
    /\ not_negative sigma.
Proof.
  apply deviation_is_never_negative.
  - discriminate.
  - reflexivity.
  - vm_compute. reflexivity.
Defined.

(** C1, as stated, fails.  Values [0.1, 0.1, 0.1] with weights [1, 1, 1]
    are non-empty, of equal length, and the weights sum to 3 > 0; the
    helper returns the mean 0.10000000000000002, above max(values) = 0.1.
    Values [0, 1] with weights [-1, 2], which sum to 1 > 0, give the mean
    2, above max(values) = 1, and the deviation nan, which is not
    non-negative. *)
Lemma mean_out_of_range :
  ([0.1; 0.1; 0.1] <> []
   /\ length [0.1; 0.1; 0.1] = length [1; 1; 1]
   /\ (0 <? Numpy.sum [1; 1; 1]) = true
   /\ weighted_mean_and_standard_deviation [0.1; 0.1; 0.1] [1; 1; 1]
      = Ok (0.10000000000000002, 1.3877787807814457e-17)
   /\ maximum [0.1; 0.1; 0.1] = 0.1
   /\ (0.10000000000000002 <=? 0.1) = false
   /\ ~ mean_in_range_and_deviation_nonneg [0.1; 0.1; 0.1] [1; 1; 1])
  /\ ([0; 1] <> []
      /\ length [0; 1] = length [-1; 2]
      /\ (0 <? Numpy.sum [-1; 2]) = true
      /\ weighted_mean_and_standard_deviation [0; 1] [-1; 2] = Ok (2, nan)
      /\ maximum [0; 1] = 1
      /\ (2 <=? 1) = false
      /\ (0 <=? nan) = false
      /\ ~ mean_in_range_and_deviation_nonneg [0; 1] [-1; 2]).
Proof.
  assert (Hrun : weighted_mean_and_standard_deviation
                   [0.1; 0.1; 0.1] [1; 1; 1]
                 = Ok (0.10000000000000002, 1.3877787807814457e-17))
    by (vm_compute; reflexivity).
  assert (Hrun' : weighted_mean_and_standard_deviation [0; 1] [-1; 2]
                  = Ok (2, nan))
    by (vm_compute; reflexivity).
  split.
  - split; [discriminate |]. split; [reflexivity |].
    split; [vm_compute; reflexivity |]. split; [exact Hrun |].
    split; [vm_compute; reflexivity |]. split; [vm_compute; reflexivity |].
    intros (mu & sigma & Heq & _ & Hmax & _).
    rewrite Hrun in Heq. injection Heq as <- <-.
    vm_compute in Hmax. discriminate.
  - split; [discriminate |]. split; [reflexivity |].
    split; [vm_compute; reflexivity |]. split; [exact Hrun' |].
    split; [vm_compute; reflexivity |]. split; [vm_compute; reflexivity |].
    split; [vm_compute; reflexivity |].
    intros (mu & sigma & Heq & _ & Hmax & _).
    rewrite Hrun' in Heq. injection Heq as <- <-.
    vm_compute in Hmax. discriminate.
Qed.

(** C4, as amended: for non-empty arrays of equal length whose weight sum,
    as numpy adds it, does not compare equal to zero, the helper returns
    the textbook formulas evaluated in float64, every operation rounded:
    mu is the rounded quotient of the sum of the rounded products w_i v_i
    and the sum of the weights, and sigma the rounded square root (nan
    below zero) of the rounded quotient of the sum of the rounded products
    w_i (v_i - mu)^2 and the sum of the weights, each sum added in numpy's
    order. *)
Theorem helper_is_rounded_textbook (values weights : list float) :
  values <> [] ->
  length values = length weights ->
  (Numpy.sum weights =? 0) = false ->
  weighted_mean_and_standard_deviation values weights
  = Ok (textbook_mean values weights,
        Numpy.sqrt (textbook_variance values weights)).
Proof.
  intros _ Hlen Hscl. apply helper_returns; assumption.
Qed.

Lemma helper_is_rounded_textbook_witness :
  weighted_mean_and_standard_deviation [1; 3] [1; 1]
  = Ok (textbook_mean [1; 3] [1; 1],
        Numpy.sqrt (textbook_variance [1; 3] [1; 1])).
Proof.
  apply helper_is_rounded_textbook.
  - discriminate.
  - reflexivity.
  - vm_compute. reflexivity.
Defined.

(** C4, as stated, fails.  The three values are the float64 0.1, the
    weights 1.  The number the textbook mean (sum_i w_i v_i) / (sum_i w_i)
    gives for them is the number that float64 stands for,
    3602879701896397 / 2^55; the mean the helper returns stands for
    another number. *)
Lemma returned_mean_is_not_the_textbook_mean :
  exists mu sigma q vs ws,
    [0.1; 0.1; 0.1] <> []
    /\ length [0.1; 0.1; 0.1] = length [1; 1; 1]
    /\ (Numpy.sum [1; 1; 1] =? 0) = false
    /\ weighted_mean_and_standard_deviation [0.1; 0.1; 0.1] [1; 1; 1]
       = Ok (mu, sigma)
    /\ exact mu = Some q
    /\ exact_all [0.1; 0.1; 0.1] = Some vs
    /\ exact_all [1; 1; 1] = Some ws
    /\ (exact_textbook_mean vs ws
        == 3602879701896397 # 36028797018963968)%Q
    /\ ~ (q == exact_textbook_mean vs ws)%Q.
Proof.
  eexists _, _, _, _, _.
  split; [discriminate |]. split; [reflexivity |].
  split; [vm_compute; reflexivity |].
  split; [vm_compute; reflexivity |].
  split; [vm_compute; reflexivity |].
  split; [vm_compute; reflexivity |].
  split; [vm_compute; reflexivity |].
  split; [vm_compute; reflexivity |].
  vm_compute. discriminate.
Qed.

(** *** The helper on objects *)

Section on_objects.
Import objects.

Lemma keeps_refl (m : Memory) : keeps m m.
Proof. split; [reflexivity | lia]. Qed.

Lemma keeps_trans (m1 m2 m3 : Memory) :
  keeps m1 m2 -> keeps m2 m3 -> keeps m1 m3.
Proof.
  intros [H12 Hn12] [H23 Hn23]. split; [| lia].
  intros r Hr. rewrite H23, H12; [reflexivity | exact Hr |].
  unfold exists_in in *. lia.
Qed.

Lemma keeps_exists (m m' : Memory) (r : ref) :
  keeps m m' -> exists_in m r -> exists_in m' r.
Proof. intros [_ Hn] Hr. unfold exists_in in *. lia. Qed.

Lemma new_array_spec (data : list float) (m : Memory) :
  exists m',
    new_array data m = (Ok (next m), m')
    /\ keeps m m'
    /\ exists_in m' (next m)
    /\ at_ref m' (next m) = ndarray data.
Proof.
  eexists. split; [reflexivity |]. split; [split |]; simpl.
  - intros r Hr. apply fn_lookup_insert_ne. unfold exists_in in Hr. lia.
  - lia.
  - split; [unfold exists_in; simpl; lia | apply fn_lookup_insert].
Qed.

Lemma asarray_spec (x : ref) (m : Memory) :
  exists_in m x ->
  exists a m',
    asarray x m = (Ok a, m')
    /\ keeps m m'
    /\ exists_in m' a
    /\ elements (at_ref m' a) = elements (at_ref m x).
Proof.
  intros Hx. unfold asarray.
  destruct (at_ref m x) as [items | data] eqn:Hobj.
  - destruct (new_array_spec items m) as (m' & Hrun & Hkeeps & Hnew & Hat).
    exists (next m), m'. rewrite Hat. auto.
  - exists x, m. rewrite Hobj.
    split; [reflexivity |]. split; [apply keeps_refl |]. auto.
Qed.

Lemma average_spec (a wgt : ref) (m : Memory) :
  exists m',
    average a wgt m
    = (Numpy.average (elements (at_ref m a)) (elements (at_ref m wgt)), m')
    /\ keeps m m'.
Proof.
  unfold average, Numpy.average, bind, read, lift, ret.
  destruct (Nat.eqb _ _); [| exists m; split; [reflexivity | apply keeps_refl]].
  destruct (Numpy.sum (elements (at_ref m wgt)) =? 0);
    [exists m; split; [reflexivity | apply keeps_refl] |].
  destruct (new_array_spec
              (Numpy.multiply (elements (at_ref m a))
                 (elements (at_ref m wgt))) m)
    as (m' & Hrun & Hkeeps & _ & Hat).
  exists m'. rewrite Hrun, Hat. split; [reflexivity | exact Hkeeps].
Qed.

Lemma subtract_spec (a : ref) (x : float) (m : Memory) :
  exists d m',
    subtract a x m = (Ok d, m')
    /\ keeps m m'
    /\ exists_in m' d
    /\ elements (at_ref m' d) = Numpy.subtract (elements (at_ref m a)) x.
Proof.
  unfold subtract, bind, read.
  destruct (new_array_spec (Numpy.subtract (elements (at_ref m a)) x) m)
    as (m' & Hrun & Hkeeps & Hnew & Hat).
  exists (next m), m'. rewrite Hrun, Hat. auto.
Qed.

Lemma square_spec (a : ref) (m : Memory) :
  exists d m',
    square a m = (Ok d, m')
    /\ keeps m m'
    /\ exists_in m' d
    /\ elements (at_ref m' d) = Numpy.square (elements (at_ref m a)).
Proof.
  unfold square, bind, read.
  destruct (new_array_spec (Numpy.square (elements (at_ref m a))) m)
    as (m' & Hrun & Hkeeps & Hnew & Hat).
  exists (next m), m'. rewrite Hrun, Hat. auto.
Qed.

(** On objects the helper computes what it computes on their contents,
    and every object that was there is left as it was. *)
Lemma helper_on_objects (values weights : ref) (m : Memory) :
  exists_in m values -> exists_in m weights ->
  exists m',
    objects.weighted_mean_and_standard_deviation values weights m
    = (tutorial_2_lens_models.weighted_mean_and_standard_deviation
         (elements (at_ref m values)) (elements (at_ref m weights)), m')
    /\ keeps m m'.
Proof.
  intros Hv Hw.
  unfold objects.weighted_mean_and_standard_deviation,
    tutorial_2_lens_models.weighted_mean_and_standard_deviation.
  unfold bind at 1.
  destruct (asarray_spec values m Hv) as (v & m1 & -> & K1 & Hv1 & Ev).
  unfold bind at 1.
  destruct (asarray_spec weights m1 (keeps_exists _ _ _ K1 Hw))
    as (w & m2 & -> & K2 & Hw2 & Ew).
  assert (Ev2 : elements (at_ref m2 v) = elements (at_ref m values))
    by (rewrite (proj1 K2 v Hv1); exact Ev).
  assert (Ew2 : elements (at_ref m2 w) = elements (at_ref m weights))
    by (rewrite Ew, (proj1 K1 weights Hw); reflexivity).
  unfold bind at 1.
  destruct (average_spec v w m2) as (m3 & -> & K3).
  rewrite Ev2, Ew2.
  destruct (Numpy.average (elements (at_ref m values))
              (elements (at_ref m weights))) as [average' | e]; simpl.
  2: { exists m3. split; [reflexivity |].
       eauto using keeps_trans. }
  unfold bind at 1.
  destruct (subtract_spec v average' m3) as (d & m4 & -> & K4 & Hd & Ed).
  unfold bind at 1.
  destruct (square_spec d m4) as (q & m5 & -> & K5 & Hq & Eq).
  unfold bind at 1.
  destruct (average_spec q w m5) as (m6 & -> & K6).
  assert (Hv2 : exists_in m2 v) by (eapply keeps_exists; eassumption).
  assert (Hw5 : at_ref m5 w = at_ref m2 w).
  { rewrite (proj1 K5 w), (proj1 K4 w), (proj1 K3 w); try reflexivity;
      eauto using keeps_exists. }
  rewrite Eq, Ed, Hw5, (proj1 K3 v Hv2), Ev2, Ew2.
  exists m6. split.
  - destruct (Numpy.average _ _); reflexivity.
  - eauto 10 using keeps_trans.
Qed.

End on_objects.

(** C10, as amended: called on two objects (lists or arrays) with non-empty
    float64 contents of equal length, the helper returns a result exactly
    when the float64 sum of the weights, as numpy adds them, does not
    compare equal to zero, and raises ZeroDivisionError when it does.  A
    positive sum is sufficient and not necessary: weights [-1] on values
    [1] return.  Whatever the outcome, every object that existed before
    the call, the two arguments included, has the contents it had; the
    outcome is that of the helper on the contents. *)
Theorem helper_returns_iff_weight_sum_nonzero
    (m : objects.Memory) (values weights : objects.ref) :
  objects.exists_in m values ->
  objects.exists_in m weights ->
  objects.elements (objects.at_ref m values) <> [] ->
  length (objects.elements (objects.at_ref m values))
  = length (objects.elements (objects.at_ref m weights)) ->
  (exists r m',
      objects.weighted_mean_and_standard_deviation values weights m = (r, m')
      /\ ((exists p, r = Ok p)
          <-> (Numpy.sum (objects.elements (objects.at_ref m weights)) =? 0)
              = false)
      /\ ((Numpy.sum (objects.elements (objects.at_ref m weights)) =? 0)
          = true ->
          r = Raise ZeroDivisionError)
      /\ ((0 <? Numpy.sum (objects.elements (objects.at_ref m weights)))
          = true ->
          exists p, r = Ok p)
      /\ (forall x,
            objects.exists_in m x ->
            objects.at_ref m' x = objects.at_ref m x)
      /\ r = weighted_mean_and_standard_deviation
               (objects.elements (objects.at_ref m values))
               (objects.elements (objects.at_ref m weights)))
  /\ (exists p,
        (0 <? Numpy.sum [-1]) = false
        /\ weighted_mean_and_standard_deviation [1] [-1] = Ok p).
Proof.
  intros Hv Hw _ Hlen. split.
  - destruct (helper_on_objects values weights m Hv Hw)
      as (m' & Hrun & Hkeeps & _).
    set (vs := objects.elements (objects.at_ref m values)) in *.
    set (ws := objects.elements (objects.at_ref m weights)) in *.
    exists (weighted_mean_and_standard_deviation vs ws), m'.
    split; [exact Hrun |].
    assert (Hzero : (Numpy.sum ws =? 0) = true ->
                    weighted_mean_and_standard_deviation vs ws
                    = Raise ZeroDivisionError)
      by (apply helper_zero_division; exact Hlen).
    assert (Hret : (Numpy.sum ws =? 0) = false ->
                   exists p, weighted_mean_and_standard_deviation vs ws = Ok p)
      by (intros Hnz; eexists; apply helper_returns; assumption).
    split; [| split; [exact Hzero | split; [| split]]].
    + split; [| exact Hret].
      intros [p Hp]. destruct (Numpy.sum ws =? 0); [| reflexivity].
      rewrite Hzero in Hp by reflexivity. discriminate.
    + intros Hpos. apply Hret, positive_is_not_zero, Hpos.
    + exact Hkeeps.
    + reflexivity.
  - eexists. split; vm_compute; reflexivity.
Qed.

Lemma helper_returns_iff_weight_sum_nonzero_witness :
  exists r m',
    objects.weighted_mean_and_standard_deviation 1%positive 2%positive
      objects.list_and_array
    = (r, m')
    /\ r = Ok (2, 1)
    /\ objects.at_ref m' 1%positive = objects.PyList [1; 3]
    /\ objects.at_ref m' 2%positive = objects.ndarray [1; 1].
Proof.
  destruct (helper_returns_iff_weight_sum_nonzero objects.list_and_array
              1%positive 2%positive)
    as [(r & m' & Hrun & _ & _ & _ & Hkeeps & Hr) _].
  - reflexivity.
  - reflexivity.
  - discriminate.
  - reflexivity.
  - exists r, m'. split; [exact Hrun |]. split; [exact Hr |].
    split; apply Hkeeps; reflexivity.
Defined.

(** C10, as stated, fails in both directions, because the test is made on
    the rounded sum.  The weights [0.1, 0.2, -0.30000000000000004] sum to
    a number that is not zero (-2^-55), and the helper raises
    ZeroDivisionError: their float64 sum is 0.0.  The weights
    [1e16, 1, -1e16, -1] sum to zero, and the helper returns: their
    float64 sum is -1.0. *)
Lemma zero_test_is_on_the_rounded_sum :
  (exists ws,
      exact_all [0.1; 0.2; -0.30000000000000004] = Some ws
      /\ (exact_sum ws == -1 # 36028797018963968)%Q
      /\ ~ (exact_sum ws == 0)%Q
      /\ Numpy.sum [0.1; 0.2; -0.30000000000000004] = 0
      /\ weighted_mean_and_standard_deviation [0.1; 0.1; 0.1]
           [0.1; 0.2; -0.30000000000000004]
         = Raise ZeroDivisionError)
  /\ (exists ws,
        exact_all [1e16; 1; -1e16; -1] = Some ws
        /\ (exact_sum ws == 0)%Q
        /\ Numpy.sum [1e16; 1; -1e16; -1] = -1
        /\ weighted_mean_and_standard_deviation [1; 1; 1; 1]
             [1e16; 1; -1e16; -1]
           = Ok (1, -0)).
Proof.
  split; eexists.
  - split; [vm_compute; reflexivity |].
    split; [vm_compute; reflexivity |].
    split; [vm_compute; discriminate |].
    split; vm_compute; reflexivity.
  - split; [vm_compute; reflexivity |].
    split; [vm_compute; reflexivity |].
    split; vm_compute; reflexivity.
Qed.

(** ** The loop over the aggregator's outputs *)

Lemma collect_samples_acc (o : MultiNestOutput) (l : list nat)
    (sample_masses sample_weights : list float) :
  fold_left
    (fun '(sample_masses, sample_weights) sample_index =>
       (sample_masses ++ [sample_einstein_mass o sample_index],
        sample_weights ++ [sample_weight_from_sample_index o sample_index]))
    l (sample_masses, sample_weights)
  = (sample_masses ++ map (sample_einstein_mass o) l,
     sample_weights ++ map (sample_weight_from_sample_index o) l).
Proof.
  revert sample_masses sample_weights.
  induction l as [| i l IH]; intros ms ws; simpl.
  - rewrite !app_nil_r. reflexivity.
  - rewrite IH, <- !app_assoc. reflexivity.
Qed.

Lemma collect_samples_eq (o : MultiNestOutput) :
  collect_samples o
  = (map (sample_einstein_mass o) (seq 0 (total_samples o)),
     map (sample_weight_from_sample_index o) (seq 0 (total_samples o))).
Proof. unfold collect_samples. rewrite collect_samples_acc. reflexivity. Qed.

Lemma collect_samples_length (o : MultiNestOutput) :
  length (fst (collect_samples o)) = length (snd (collect_samples o)).
Proof. rewrite collect_samples_eq. simpl. rewrite !length_map. reflexivity. Qed.

(** One iteration of the outer loop, by the outcome of the helper. *)
Lemma loop_step_returns (o : MultiNestOutput) (rest : list MultiNestOutput)
    (ms es : list float) (value error : float) :
  weighted_mean_and_standard_deviation
    (fst (collect_samples o)) (snd (collect_samples o)) = Ok (value, error) ->
  for_multi_nest_output (o :: rest) ms es
  = for_multi_nest_output rest (ms ++ [value]) (es ++ [value]).
Proof.
  intros Hrun. simpl. destruct (collect_samples o) as [sm sw]. simpl in Hrun.
  rewrite Hrun. reflexivity.
Qed.

Lemma loop_step_raises (o : MultiNestOutput) (rest : list MultiNestOutput)
    (ms es : list float) (e : PyError) :
  weighted_mean_and_standard_deviation
    (fst (collect_samples o)) (snd (collect_samples o)) = Raise e ->
  for_multi_nest_output (o :: rest) ms es = Raise e.
Proof.
  intros Hrun. simpl. destruct (collect_samples o) as [sm sw]. simpl in Hrun.
  rewrite Hrun. reflexivity.
Qed.

Lemma loop_appends_means (outs : list MultiNestOutput) :
  forall ms es ms' es',
    for_multi_nest_output outs ms es = Ok (ms', es') ->
    exists means,
      ms' = ms ++ means /\ es' = es ++ means /\ Forall2 mean_of outs means.
Proof.
  induction outs as [| o outs IH]; intros ms es ms' es' Hrun.
  - simpl in Hrun. injection Hrun as <- <-. exists [].
    rewrite !app_nil_r. repeat split. constructor.
  - destruct (weighted_mean_and_standard_deviation
                (fst (collect_samples o)) (snd (collect_samples o)))
      as [[value error] | e] eqn:Hhelper.
    + rewrite (loop_step_returns _ _ _ _ _ _ Hhelper) in Hrun.
      destruct (IH _ _ _ _ Hrun) as (means & -> & -> & Hmeans).
      exists (value :: means).
      rewrite <- !app_assoc. repeat split. constructor; [| exact Hmeans].
      unfold mean_of.
      unfold weighted_mean_and_standard_deviation in Hhelper.
      destruct (Numpy.average (fst (collect_samples o))
                  (snd (collect_samples o))) as [average | e];
        [| discriminate].
      simpl in Hhelper.
      destruct (Numpy.average _ _) as [variance | e] in Hhelper;
        [| discriminate].
      simpl in Hhelper. injection Hhelper as -> _. reflexivity.
    + rewrite (loop_step_raises _ _ _ _ _ Hhelper) in Hrun. discriminate.
Qed.

Lemma loop_completes (outs : list MultiNestOutput) :
  Forall (fun o => (Numpy.sum (snd (collect_samples o)) =? 0) = false) outs ->
  forall ms es,
    exists means,
      for_multi_nest_output outs ms es = Ok (ms ++ means, es ++ means).
Proof.
  induction 1 as [| o outs Ho _ IH]; intros ms es.
  - exists []. rewrite !app_nil_r. reflexivity.
  - pose proof (helper_returns _ _ (collect_samples_length o) Ho) as Hhelper.
    rewrite (loop_step_returns _ _ _ _ _ _ Hhelper).
    destruct (IH (ms ++ [textbook_mean (fst (collect_samples o))
                           (snd (collect_samples o))])
                 (es ++ [textbook_mean (fst (collect_samples o))
                           (snd (collect_samples o))]))
      as [means Hrest].
    eexists (_ :: means). rewrite Hrest, <- !app_assoc. reflexivity.
Qed.

(** C3: whenever the loop over multi_nest_outputs finishes,
    einstein_mass_errors equals einstein_masses element by element, and
    each entry is the weighted mean np.average(sample_masses,
    weights=sample_weights) of its output: the standard deviation returned
    by the helper reaches neither list.  The loop finishes whenever the
    sample weights of every output have a float64 sum, as numpy adds them,
    that does not compare equal to zero. *)
Theorem einstein_mass_errors_hold_the_means
    (multi_nest_outputs : list MultiNestOutput) :
  (forall einstein_masses einstein_mass_errors,
      einstein_mass_loop multi_nest_outputs
      = Ok (einstein_masses, einstein_mass_errors) ->
      einstein_mass_errors = einstein_masses
      /\ Forall2 mean_of multi_nest_outputs einstein_mass_errors)
  /\ (Forall (fun o => (Numpy.sum (snd (collect_samples o)) =? 0) = false)
        multi_nest_outputs ->
      exists einstein_masses,
        einstein_mass_loop multi_nest_outputs
        = Ok (einstein_masses, einstein_masses)).
Proof.
  unfold einstein_mass_loop. split.
  - intros ms es Hrun.
    destruct (loop_appends_means _ _ _ _ _ Hrun) as (means & -> & -> & Hm).
    split; [reflexivity | exact Hm].
  - intros Hw. destruct (loop_completes _ Hw [] []) as [means Hrun].
    exists means. exact Hrun.
Qed.

Lemma einstein_mass_errors_hold_the_means_witness :
  exists einstein_masses,
    einstein_mass_loop [two_sample_output]
    = Ok (einstein_masses, einstein_masses)
    /\ Forall2 mean_of [two_sample_output] einstein_masses.
Proof.
  destruct (einstein_mass_errors_hold_the_means [two_sample_output])
    as [Hequal Hruns].
  destruct Hruns as [einstein_masses Hrun].
  - repeat constructor.
  - exists einstein_masses. split; [exact Hrun |].
    exact (proj2 (Hequal _ _ Hrun)).
Defined.

(** The loop stops at the first output on which the helper raises. *)
Lemma loop_raises_at (before : list MultiNestOutput) (o : MultiNestOutput)
    (after : list MultiNestOutput) (e : PyError) :
  Forall (fun o => (Numpy.sum (snd (collect_samples o)) =? 0) = false)
    before ->
  weighted_mean_and_standard_deviation
    (fst (collect_samples o)) (snd (collect_samples o)) = Raise e ->
  forall ms es,
    for_multi_nest_output (before ++ o :: after) ms es = Raise e.
Proof.
  intros Hbefore Hraise.
  induction Hbefore as [| o' before Ho' _ IH]; intros ms es.
  - apply loop_step_raises. exact Hraise.
  - pose proof (helper_returns _ _ (collect_samples_length o') Ho') as Hret.
    change ((o' :: before) ++ o :: after) with (o' :: (before ++ o :: after)).
    rewrite (loop_step_returns _ _ _ _ _ _ Hret). apply IH.
Qed.

Lemma helper_raises_without_samples (o : MultiNestOutput) :
  total_samples o = 0%nat ->
  weighted_mean_and_standard_deviation
    (fst (collect_samples o)) (snd (collect_samples o))
  = Raise ZeroDivisionError.
Proof.
  intros Hzero. rewrite collect_samples_eq, Hzero. reflexivity.
Qed.

End weighted_statistics.

(** ** Prior passing in the pipelines *)

Section prior_passing.
Import AutoLens PriorPassing.
Local Open Scope string_scope.
Local Open Scope list_scope.

Lemma existsb_earlier (earlier later : list Phase) (id : nat) :
  existsb (fun q => Nat.eqb (phase_id q) id) earlier = true ->
  exists m q,
    (m < length earlier)%nat
    /\ (earlier ++ later) !! m = Some q /\ phase_id q = id.
Proof.
  intros H. apply existsb_exists in H as (q & Hq & Hid).
  apply Nat.eqb_eq in Hid.
  apply list_elem_of_In, list_elem_of_lookup in Hq as [m Hm].
  exists m, q.
  pose proof (lookup_lt_Some _ _ _ Hm) as Hlt.
  split; [exact Hlt | split; [| exact Hid]].
  rewrite lookup_app_l by exact Hlt. exact Hm.
Qed.




Lemma all_bindings_check (cs : list Phase) :
  all_bindingsb cs = true -> all_bindings seven_forms cs.
Proof.
  intros H. unfold all_bindings. unfold all_bindingsb in H. rewrite forallb_forall in H.
  apply Forall_forall. intros p Hp. apply list_elem_of_In in Hp.
  specialize (H p Hp). rewrite forallb_forall in H.
  apply Forall_forall. intros b Hb. apply list_elem_of_In in Hb.
  specialize (H b Hb). unfold seven_forms, three_forms.
  destruct (form_of (snd b)); try discriminate; tauto.
Qed.



(** A call returns with [Q] when it evaluates to a return on which the
    check [qb] for [Q] succeeds. *)
Lemma call_returns_with {A} (m : M A) (h : loc -> list string)
    (Q : A -> State -> Prop) (qb : A -> State -> bool) :
  (forall a s, qb a s = true -> Q a s) ->
  match call m h with
  | Returns a s => qb a s
  | Raises _ _ => false
  end = true ->
  exists a s, call m h = Returns a s /\ Q a s.
Proof.
  intros Hsound Hrun. destruct (call m h) as [a s | e s]; [| discriminate].
  exists a, s. split; [reflexivity | apply Hsound, Hrun].
Qed.




Lemma forms_check (p : Pipeline) (s : State) :
  forms_checkb p s = true -> all_bindings seven_forms (constructed s).
Proof. apply all_bindings_check. Qed.

Ltac by_forms_check :=
  apply (call_returns_with _ _ _ forms_checkb forms_check);
  vm_compute; reflexivity.

(** C5, as amended: every parameter binding made by the six make_pipeline
    functions has one of seven forms.  A binding that reads a completed
    phase's result is fixed to its best-fit value (instance / constant) or
    made adjustable from its posterior (model / variable /
    model_absolute(a=0.1)); a component given as a profile class is left
    at its default prior; and the remaining bindings read no result: an
    explicit GaussianPrior, a value supplied by the caller (an argument or
    an attribute of setup), an alignment with another parameter of the
    same model, or None. *)
Theorem bindings_have_one_of_seven_forms :
  (forall tagger include_shear pixelization regularization l h,
      exists p s',
        call (simple_lens_sie__source_inversion.make_pipeline tagger
                include_shear pixelization regularization (PyList l)) h
        = Returns p s'
        /\ all_bindings seven_forms (constructed s'))
  /\ (forall namer folders phase_folders h,
      exists p s',
        call (simple_lens_sersic_sie_shear_source_sersic.make_pipeline namer
                folders phase_folders) h
        = Returns p s'
        /\ all_bindings seven_forms (constructed s'))
  /\ (forall namer folders pl_fix_lens_light phase_folders h,
      exists p s',
        call (with_lens_light_lens_sersic_sie_shear_source_inversion.make_pipeline
                namer folders pl_fix_lens_light phase_folders) h
        = Returns p s'
        /\ all_bindings seven_forms (constructed s'))
  /\ (forall namer pl_fix_lens_light pl_hyper_galaxies pl_pixelization
             pl_regularization l h,
      exists p s',
        call (hyper_lens_sersic_sie_shear_source_inversion.make_pipeline namer
                pl_fix_lens_light pl_hyper_galaxies pl_pixelization
                pl_regularization (PyList l)) h
        = Returns p s'
        /\ all_bindings seven_forms (constructed s'))
  /\ (forall setup l h,
      exists p s',
        call (advanced_lens_bulge_disk_sie__source_sersic.make_pipeline setup
                (PyList l)) h
        = Returns p s'
        /\ all_bindings seven_forms (constructed s'))
  /\ (forall set_light_type setup l h,
      exists p s',
        call (advanced_lens_gaussians_sie__source.make_pipeline set_light_type
                setup (PyList l)) h
        = Returns p s'
        /\ all_bindings seven_forms (constructed s')).
Proof.
  split; [| split; [| split; [| split; [| split]]]].
  - intros tagger [] pixelization regularization l h; by_forms_check.
  - intros namer folders phase_folders h.
    apply (call_returns_with _ _ _ forms_checkb forms_check).
    unfold call, simple_lens_sersic_sie_shear_source_sersic.make_pipeline.
    unfold bind at 1. unfold on_heap at 1. cbn [heap constructed].
    destruct (folders phase_folders _ h) as [phase_folders' h'].
    vm_compute. reflexivity.
  - intros namer folders pl_fix_lens_light phase_folders h.
    apply (call_returns_with _ _ _ forms_checkb forms_check).
    unfold call,
      with_lens_light_lens_sersic_sie_shear_source_inversion.make_pipeline.
    unfold bind at 1. unfold on_heap at 1. cbn [heap constructed].
    destruct (folders phase_folders _ h) as [phase_folders' h'].
    destruct pl_fix_lens_light; vm_compute; reflexivity.
  - intros namer [] [] pl_pixelization pl_regularization l h;
      by_forms_check.
  - intros [g [st tni ns llc llbo almc lmc] lt] l h.
    destruct ns, llc, llbo, almc, lmc; by_forms_check.
  - intros set_light_type setup l h.
    apply (call_returns_with _ _ _ forms_checkb forms_check).
    unfold call, advanced_lens_gaussians_sie__source.make_pipeline.
    destruct (set_light_type setup "gaussians")
      as [[gt hg his hbn] src [lt das abc aba abp]].
    destruct hg, das, abc, aba, abp; vm_compute; reflexivity.
Qed.

(** C5, as stated, fails: the pass_priors of the first phase of
    pipelines/simple/lens_sersic_sie_shear_source_sersic.py binds
    lens_galaxies.lens.light.centre_0 to GaussianPrior(mean=0.0,
    sigma=0.1), which is neither a value of a completed phase, nor a
    distribution derived from one, nor the default prior. *)
Lemma pass_priors_binds_an_explicit_prior :
  exists p s' phase1,
    call (simple_lens_sersic_sie_shear_source_sersic.make_pipeline
            (fun name => name) (fun phase_folders _ h => (phase_folders, h))
            PyNone) (fun _ => [])
    = Returns p s'
    /\ constructed s' !! 0%nat = Some phase1
    /\ In (assign "lens_galaxies.lens.light.centre_0"
             (GaussianPrior 0.0 0.1)) (pass_priors phase1)
    /\ form_of (GaussianPrior 0.0 0.1) = ExplicitPrior
    /\ ~ three_forms (form_of (GaussianPrior 0.0 0.1))
    /\ ~ all_bindings three_forms (constructed s').
Proof.
  assert (Hnot : ~ three_forms (form_of (GaussianPrior 0.0 0.1))).
  { intros [H | [H | H]]; discriminate H. }
  eexists _, _, _. split; [vm_compute; reflexivity |].
  split; [reflexivity |]. split; [left; reflexivity |].
  split; [reflexivity |]. split; [exact Hnot |].
  intros Hall. unfold all_bindings in Hall.
  apply Forall_inv in Hall.
  apply Forall_app in Hall as [_ Hpriors].
  apply Forall_inv in Hpriors. exact (Hnot Hpriors).
Qed.

Lemma same_names_eq (a b : list string) : same_names a b = true -> a = b.
Proof.
  revert b. induction a as [| x a IH]; intros [| y b] H;
    simpl in H; try discriminate; [reflexivity |].
  apply andb_prop in H as [Hxy Hab].
  apply String.eqb_eq in Hxy. rewrite Hxy, (IH b Hab). reflexivity.
Qed.

Lemma names_check (passed built : list string) (p : Pipeline) (s : State) :
  names_areb passed built p s = true -> names_are passed built p s.
Proof.
  intros H. apply andb_prop in H as [H1 H2].
  split; apply same_names_eq; assumption.
Qed.

(** C6: make_pipeline of pipelines/with_lens_light/inversion/
    from_initialize/lens_sersic_sie_shear_source_inversion.py returns a
    pipeline of exactly two phases, phase1 and phase2.  It builds three
    phases, and the file documents three, but the third,
    'phase_3_lens_sersic_sie_shear_refine_source_inversion', is not among
    the phases of the pipeline it returns. *)
Theorem third_phase_is_built_and_dropped :
  forall namer folders pl_fix_lens_light phase_folders h,
    exists p s',
      call (with_lens_light_lens_sersic_sie_shear_source_inversion.make_pipeline
              namer folders pl_fix_lens_light phase_folders) h
      = Returns p s'
      /\ map phase_name (phases p)
         = ["phase_1_initialize_inversion";
            "phase_2_lens_sersic_sie_shear_source_inversion"]
      /\ map phase_name (constructed s')
         = ["phase_1_initialize_inversion";
            "phase_2_lens_sersic_sie_shear_source_inversion";
            "phase_3_lens_sersic_sie_shear_refine_source_inversion"]
      /\ length (phases p) = 2%nat
      /\ with_lens_light_lens_sersic_sie_shear_source_inversion.documented_phases
         = 3%nat
      /\ Forall
           (fun q =>
              phase_name q
              <> "phase_3_lens_sersic_sie_shear_refine_source_inversion")
           (phases p).
Proof.
  intros namer folders pl_fix_lens_light phase_folders h.
  destruct (call_returns_with
              (with_lens_light_lens_sersic_sie_shear_source_inversion.make_pipeline
                 namer folders pl_fix_lens_light phase_folders) h
              _ _ (names_check
                     ["phase_1_initialize_inversion";
                      "phase_2_lens_sersic_sie_shear_source_inversion"]
                     ["phase_1_initialize_inversion";
                      "phase_2_lens_sersic_sie_shear_source_inversion";
                      "phase_3_lens_sersic_sie_shear_refine_source_inversion"]))
    as (p & s' & Hrun & Hpassed & Hbuilt).
  { unfold call,
      with_lens_light_lens_sersic_sie_shear_source_inversion.make_pipeline.
    unfold bind at 1. unfold on_heap at 1. cbn [heap constructed].
    destruct (folders phase_folders _ h) as [phase_folders' h'].
    destruct pl_fix_lens_light; vm_compute; reflexivity. }
  exists p, s'. split; [exact Hrun |]. split; [exact Hpassed |].
  split; [exact Hbuilt |].
  assert (Hlen : length (phases p) = 2%nat)
    by (rewrite <- (length_map phase_name), Hpassed; reflexivity).
  split; [exact Hlen |]. split; [reflexivity |].
  destruct (phases p) as [| q1 [| q2 [| q3 qs]]]; try discriminate Hlen.
  injection Hpassed as Hq1 Hq2.
  repeat constructor; [rewrite Hq1 | rewrite Hq2]; discriminate.
Qed.

(** Runs a call up to its outcome. *)
Ltac run_call :=
  cbv beta iota zeta delta
    [call bind ret list_append construct on_heap heap constructed
     result_of extend_with phase_id phase_name phase_folders model
     pass_priors modify_image extension class_pass_priors
     class_modify_image PipelineDataset PipelineImaging phases
     pipeline_name].

Ltac heap_at_l :=
  repeat (rewrite fn_lookup_insert); rewrite <- ?app_assoc; reflexivity.

Ltac heap_elsewhere :=
  intros l' Hl'; repeat (rewrite fn_lookup_insert_ne by congruence);
  reflexivity.

(** C7: make_pipeline appends the pipeline name and then its tag strings
    to the list object it is given as phase_folders.  When the call
    returns, that list is the original list followed by the pipeline name
    and the tags, in this order (so nothing of the original list is
    removed or moved), no other list has changed, and every phase of the
    pipeline holds this same list as its phase_folders.  Shown for the
    pipelines that append name and tags themselves:
    simple/lens_sie__source_inversion.py,
    advanced/.../lens_gaussians_sie__source.py and
    advanced/.../lens_bulge_disk_sie__source_sersic.py. *)
Theorem phase_folders_extended_by_name_and_tags :
  (forall tagger include_shear pixelization regularization l h,
      exists p s',
        call (simple_lens_sie__source_inversion.make_pipeline tagger
                include_shear pixelization regularization (PyList l)) h
        = Returns p s'
        /\ heap s' l
           = h l ++ [pipeline_name p;
                     tagger include_shear pixelization regularization]
        /\ pipeline_name p = "pipeline__sie__source_inversion"
        /\ (forall l', l' <> l -> heap s' l' = h l')
        /\ Forall (fun q => phase_folders q = PyList l) (phases p))
  /\ (forall set_light_type setup l h,
      exists p s',
        call (advanced_lens_gaussians_sie__source.make_pipeline set_light_type
                setup (PyList l)) h
        = Returns p s'
        /\ heap s' l
           = h l ++ [pipeline_name p;
                     general_tag (general (set_light_type setup "gaussians"));
                     source_tag (source (set_light_type setup "gaussians"));
                     light_tag (light (set_light_type setup "gaussians"))]
        /\ pipeline_name p = "pipeline_light__gaussians"
        /\ (forall l', l' <> l -> heap s' l' = h l')
        /\ Forall (fun q => phase_folders q = PyList l) (phases p))
  /\ (forall setup l h,
      exists p s',
        call (advanced_lens_bulge_disk_sie__source_sersic.make_pipeline setup
                (PyList l)) h
        = Returns p s'
        /\ heap s' l
           = h l ++ [pipeline_name p;
                     general_tag (general setup);
                     tag_no_inversion (source setup)]
        /\ pipeline_name p = "pipeline_source__parametric__bulge_disk"
        /\ (forall l', l' <> l -> heap s' l' = h l')
        /\ Forall (fun q => phase_folders q = PyList l) (phases p)).
Proof.
  split; [| split].
  - intros tagger include_shear pixelization regularization l h.
    unfold simple_lens_sie__source_inversion.make_pipeline. run_call.
    eexists _, _. split; [reflexivity |]. cbn [heap phases pipeline_name].
    split; [heap_at_l |]. split; [reflexivity |].
    split; [heap_elsewhere |]. repeat constructor.
  - intros set_light_type setup l h.
    unfold advanced_lens_gaussians_sie__source.make_pipeline. run_call.
    eexists _, _. split; [reflexivity |]. cbn [heap phases pipeline_name].
    split; [heap_at_l |]. split; [reflexivity |].
    split; [heap_elsewhere |]. repeat constructor.
  - intros setup l h.
    unfold advanced_lens_bulge_disk_sie__source_sersic.make_pipeline.
    run_call.
    eexists _, _. split; [reflexivity |]. cbn [heap phases pipeline_name].
    split; [heap_at_l |]. split; [reflexivity |].
    split; [heap_elsewhere |]. repeat constructor.
Qed.

(** C9: make_pipeline of pipelines/simple/lens_sie__source_inversion.py,
    called with phase_folders=None, raises AttributeError with no phase
    built and no list changed; it returns exactly when phase_folders is a
    list, and then it has appended to that very list and built its three
    phases. *)
Theorem none_phase_folders_raises_before_any_phase :
  forall tagger include_shear pixelization regularization h,
    call (simple_lens_sie__source_inversion.make_pipeline tagger
            include_shear pixelization regularization PyNone) h
    = Raises AttributeError {| heap := h; constructed := [] |}
    /\ (forall phase_folders,
          (exists p s',
              call (simple_lens_sie__source_inversion.make_pipeline tagger
                      include_shear pixelization regularization
                      phase_folders) h
              = Returns p s')
          <-> exists l, phase_folders = PyList l)
    /\ (forall l,
          exists p s',
            call (simple_lens_sie__source_inversion.make_pipeline tagger
                    include_shear pixelization regularization (PyList l)) h
            = Returns p s'
            /\ heap s' l
               = h l ++ ["pipeline__sie__source_inversion";
                         tagger include_shear pixelization regularization]
            /\ length (constructed s') = 3%nat).
Proof.
  intros tagger include_shear pixelization regularization h.
  assert (Hlist : forall l,
    exists p s',
      call (simple_lens_sie__source_inversion.make_pipeline tagger
              include_shear pixelization regularization (PyList l)) h
      = Returns p s'
      /\ heap s' l
         = h l ++ ["pipeline__sie__source_inversion";
                   tagger include_shear pixelization regularization]
      /\ length (constructed s') = 3%nat).
  { intros l.
    unfold simple_lens_sie__source_inversion.make_pipeline. run_call.
    eexists _, _. split; [reflexivity |]. cbn [heap constructed].
    split; [heap_at_l | reflexivity]. }
  split; [reflexivity |]. split; [| exact Hlist].
  intros [| l]; split.
  - intros (p & s' & Hrun). discriminate Hrun.
  - intros [l Hl]. discriminate Hl.
  - intros _. exists l. reflexivity.
  - intros _. destruct (Hlist l) as (p & s' & Hrun & _).
    exists p, s'. exact Hrun.
Qed.

End prior_passing.

(** ** The runner script *)

(** Both directions of both equivalences, once the outcome of every call
    up to the first failure is known. *)
Ltac open_cases :=
  repeat match goal with
         | H : _ \/ _ |- _ => destruct H
         | H : ex _ |- _ => destruct H
         | H : _ /\ _ |- _ => destruct H
         end.

Ltac by_outcome :=
  split; [| intros ?e]; split; intros Houtcome;
    try discriminate Houtcome; try (injection Houtcome as <-);
    try (open_cases; congruence); eauto 40.

Section runner.
Local Open Scope list_scope.
Local Open Scope string_scope.

Variables CCDData Mask : Type.
Variable shape : CCDData -> nat * nat.
Variable pixel_scale_of : CCDData -> Q.
Variable Config : string -> string -> result unit.
Variable make_path : string -> list string -> result string.
Variable load : string -> string -> string -> Q -> result CCDData.
Variable Mask_circular : nat * nat -> Q -> Q -> result Mask.
Variable plot : CCDData -> Mask -> result unit.
Variable make_and_run_pipelines : CCDData -> result unit.
Variable workspace_path : string.

(** X25: the runner script reaches its pipelines only through six calls
    that all returned, and a failure of any of its calls is the outcome of
    the script.  It succeeds exactly when the configuration is set, both
    data paths are made, the three fits files under
    data/example/lens_sie__source_sersic are loaded with pixel scale 0.1,
    the circular mask of radius 3.0 is made from the shape and pixel scale
    of what was loaded, the plot returns, and the pipelines run on what
    was loaded; it ends with an exception exactly when one of these calls
    raises it after the calls before it returned. *)
Theorem runner_script_outcome :
  let script :=
    runner_hyper_galaxies_no_lens_light.script CCDData Mask shape
      pixel_scale_of Config make_path load Mask_circular plot
      make_and_run_pipelines workspace_path in
  let configured :=
    Config (workspace_path ++ "config") (workspace_path ++ "output")
    = Ok tt in
  let loaded data_path ccd_data :=
    exists data_path',
      configured
      /\ make_path workspace_path ["data"] = Ok data_path'
      /\ make_path data_path' ["example"; "lens_sie__source_sersic"]
         = Ok data_path
      /\ load (data_path ++ "image.fits") (data_path ++ "psf.fits")
           (data_path ++ "noise_map.fits") 0.1%Q
         = Ok ccd_data in
  let masked ccd_data mask :=
    exists data_path,
      loaded data_path ccd_data
      /\ Mask_circular (shape ccd_data) (pixel_scale_of ccd_data) 3.0%Q
         = Ok mask in
  (script = Ok tt
   <-> exists ccd_data mask,
         masked ccd_data mask
         /\ plot ccd_data mask = Ok tt
         /\ make_and_run_pipelines ccd_data = Ok tt)
  /\ (forall e,
        script = Raise e
        <-> Config (workspace_path ++ "config") (workspace_path ++ "output")
            = Raise e
            \/ (configured /\ make_path workspace_path ["data"] = Raise e)
            \/ (exists data_path,
                  configured
                  /\ make_path workspace_path ["data"] = Ok data_path
                  /\ make_path data_path
                       ["example"; "lens_sie__source_sersic"]
                     = Raise e)
            \/ (exists data_path' data_path,
                  configured
                  /\ make_path workspace_path ["data"] = Ok data_path'
                  /\ make_path data_path'
                       ["example"; "lens_sie__source_sersic"]
                     = Ok data_path
                  /\ load (data_path ++ "image.fits")
                       (data_path ++ "psf.fits")
                       (data_path ++ "noise_map.fits") 0.1%Q
                     = Raise e)
            \/ (exists data_path ccd_data,
                  loaded data_path ccd_data
                  /\ Mask_circular (shape ccd_data)
                       (pixel_scale_of ccd_data) 3.0%Q
                     = Raise e)
            \/ (exists ccd_data mask,
                  masked ccd_data mask /\ plot ccd_data mask = Raise e)
            \/ (exists ccd_data mask,
                  masked ccd_data mask
                  /\ plot ccd_data mask = Ok tt
                  /\ make_and_run_pipelines ccd_data = Raise e)).
Proof.
  cbv zeta. unfold runner_hyper_galaxies_no_lens_light.script.
  destruct (Config _ _) as [[] | e0] eqn:Hconfig; simpl; [| by_outcome].
  destruct (make_path workspace_path _) as [data_path' | e0] eqn:Hpath;
    simpl; [| by_outcome].
  destruct (make_path data_path' _) as [data_path | e0] eqn:Hpath';
    simpl; [| by_outcome].
  destruct (load _ _ _ _) as [ccd_data | e0] eqn:Hload; simpl;
    [| by_outcome].
  destruct (Mask_circular _ _ _) as [mask | e0] eqn:Hmask; simpl;
    [| by_outcome].
  destruct (plot ccd_data mask) as [[] | e0] eqn:Hplot; simpl;
    [| by_outcome].
  destruct (make_and_run_pipelines ccd_data) as [[] | e0] eqn:Hrun;
    by_outcome.
Qed.

End runner.

(** ** More on the weighted statistics helper *)

Section statistics_laws.
Import tutorial_2_lens_models.
Local Open Scope float_scope.

(** X5: the helper raises TypeError exactly when values and weights differ
    in length, whatever the weights sum to, and raises nothing but
    TypeError and ZeroDivisionError; two empty arrays are a
    ZeroDivisionError. *)
Theorem helper_exceptions (values weights : list float) :
  (weighted_mean_and_standard_deviation values weights = Raise TypeError
   <-> length values <> length weights)
  /\ (forall e,
        weighted_mean_and_standard_deviation values weights = Raise e ->
        e = TypeError \/ e = ZeroDivisionError)
  /\ weighted_mean_and_standard_deviation [] [] = Raise ZeroDivisionError.
Proof.
  split; [| split].
  - split.
    + intros Hrun Hlen.
      destruct (helper_cases values weights)
        as [[Hne _] | [(_ & _ & H) | (_ & _ & H)]];
        [contradiction | |]; rewrite H in Hrun; discriminate.
    + apply helper_type_error.
  - intros e Hrun.
    destruct (helper_cases values weights)
      as [[_ H] | [(_ & _ & H) | (_ & _ & H)]];
      rewrite H in Hrun; try discriminate;
      injection Hrun as <-; auto.
  - reflexivity.
Qed.

(** ** More on the loops of the aggregator script *)

Lemma lookup_map_seq {A} (f : nat -> A) (n i : nat) :
  (i < n)%nat -> map f (seq 0 n) !! i = Some (f i).
Proof.
  intros Hi. change (map f (seq 0 n)) with (f <$> seq 0 n).
  rewrite list_lookup_fmap, lookup_seq_lt by exact Hi. reflexivity.
Qed.

(** X9: the inner loop keeps the samples in order and drops none: both
    lists have total_samples entries, and entry i is the Einstein mass,
    respectively the weight, of sample i. *)
Theorem collect_samples_by_index (o : MultiNestOutput) (i : nat) :
  (i < total_samples o)%nat ->
  fst (collect_samples o) !! i = Some (sample_einstein_mass o i)
  /\ snd (collect_samples o) !! i
     = Some (sample_weight_from_sample_index o i)
  /\ length (fst (collect_samples o)) = total_samples o
  /\ length (snd (collect_samples o)) = total_samples o.
Proof.
  intros Hi. rewrite collect_samples_eq. simpl.
  rewrite !lookup_map_seq by exact Hi.
  rewrite !length_map, !length_seq. auto.
Qed.

Lemma collect_samples_by_index_witness :
  fst (collect_samples two_sample_output) !! 1%nat = Some 3
  /\ snd (collect_samples two_sample_output) !! 1%nat = Some 1
  /\ length (fst (collect_samples two_sample_output)) = 2%nat
  /\ length (snd (collect_samples two_sample_output)) = 2%nat.
Proof.
  apply (collect_samples_by_index two_sample_output 1). simpl. lia.
Defined.

Lemma loop_returns_only_on_nonzero_weights (outs : list MultiNestOutput) :
  forall ms es r,
    for_multi_nest_output outs ms es = Ok r ->
    Forall (fun o => (Numpy.sum (snd (collect_samples o)) =? 0) = false) outs.
Proof.
  induction outs as [| o outs IH]; intros ms es r Hrun; [constructor |].
  destruct (Numpy.sum (snd (collect_samples o)) =? 0) eqn:Hz.
  - pose proof (helper_zero_division _ _ (collect_samples_length o) Hz)
      as Hraise.
    rewrite (loop_step_raises _ _ _ _ _ Hraise) in Hrun. discriminate.
  - constructor; [exact Hz |].
    pose proof (helper_returns _ _ (collect_samples_length o) Hz) as Hret.
    rewrite (loop_step_returns _ _ _ _ _ _ Hret) in Hrun.
    exact (IH _ _ _ Hrun).
Qed.

(** X10: the loop over multi_nest_outputs finishes exactly when, for every
    output, the sum of the sample weights as numpy adds it does not compare
    equal to zero, and then both lists have one entry per output. *)
Theorem loop_finishes_iff_all_weight_sums_nonzero
    (multi_nest_outputs : list MultiNestOutput) :
  ((exists r, einstein_mass_loop multi_nest_outputs = Ok r)
   <-> Forall (fun o => (Numpy.sum (snd (collect_samples o)) =? 0) = false)
         multi_nest_outputs)
  /\ (forall einstein_masses einstein_mass_errors,
        einstein_mass_loop multi_nest_outputs
        = Ok (einstein_masses, einstein_mass_errors) ->
        length einstein_masses = length multi_nest_outputs
        /\ length einstein_mass_errors = length multi_nest_outputs).
Proof.
  unfold einstein_mass_loop. split; [split |].
  - intros [r Hrun]. exact (loop_returns_only_on_nonzero_weights _ _ _ _ Hrun).
  - intros Hall. destruct (loop_completes _ Hall [] []) as [means Hrun].
    eexists. exact Hrun.
  - intros ms es Hrun.
    destruct (loop_appends_means _ _ _ _ _ Hrun) as (means & -> & -> & Hm).
    simpl. apply Forall2_length in Hm. auto.
Qed.

Lemma loop_finishes_iff_all_weight_sums_nonzero_witness :
  (exists r, einstein_mass_loop [two_sample_output; two_sample_output] = Ok r)
  /\ ~ (exists r, einstein_mass_loop [two_sample_output; empty_output] = Ok r).
Proof.
  split.
  - apply (loop_finishes_iff_all_weight_sums_nonzero
             [two_sample_output; two_sample_output]).
    repeat constructor.
  - intros Hrun.
    apply (loop_finishes_iff_all_weight_sums_nonzero
             [two_sample_output; empty_output]) in Hrun.
    apply Forall_inv_tail, Forall_inv in Hrun. discriminate Hrun.
Defined.

(** X11: the loop composes.  Running it over one batch of outputs and
    then, from the lists it leaves, over a second batch is running it over
    both batches at once; a failure in the first batch is the failure of
    the whole. *)
Theorem loop_over_batches (first second : list MultiNestOutput)
    (einstein_masses einstein_mass_errors : list float) :
  for_multi_nest_output (first ++ second) einstein_masses
    einstein_mass_errors
  = rbind (for_multi_nest_output first einstein_masses einstein_mass_errors)
      (fun '(masses, errors) =>
         for_multi_nest_output second masses errors).
Proof.
  revert einstein_masses einstein_mass_errors.
  induction first as [| o first IH]; intros ms es; [reflexivity |].
  change ((o :: first) ++ second) with (o :: (first ++ second)).
  destruct (weighted_mean_and_standard_deviation
              (fst (collect_samples o)) (snd (collect_samples o)))
    as [[value error] | e] eqn:Hhelper.
  - rewrite !(loop_step_returns _ _ _ _ _ _ Hhelper). apply IH.
  - rewrite !(loop_step_raises _ _ _ _ _ Hhelper). reflexivity.
Qed.

(** X23: the loop over multi_nest_outputs ends with the exception of the
    first output on which the helper raises: the outputs after it are not
    looked at, and nothing is printed.  An output without samples is such
    an output, with ZeroDivisionError. *)
Theorem loop_ends_with_first_failure
    (before : list MultiNestOutput) (o : MultiNestOutput)
    (after : list MultiNestOutput) :
  Forall (fun o => (Numpy.sum (snd (collect_samples o)) =? 0) = false)
    before ->
  (forall e,
      weighted_mean_and_standard_deviation
        (fst (collect_samples o)) (snd (collect_samples o)) = Raise e ->
      einstein_mass_loop (before ++ o :: after) = Raise e)
  /\ (total_samples o = 0%nat ->
      einstein_mass_loop (before ++ o :: after) = Raise ZeroDivisionError).
Proof.
  intros Hbefore. split.
  - intros e Hraise. apply loop_raises_at; assumption.
  - intros Hzero. apply loop_raises_at; [assumption |].
    apply helper_raises_without_samples. exact Hzero.
Qed.

Lemma loop_ends_with_first_failure_witness :
  einstein_mass_loop [two_sample_output; empty_output; two_sample_output]
  = Raise ZeroDivisionError.
Proof.
  apply (loop_ends_with_first_failure [two_sample_output] empty_output
           [two_sample_output]).
  - repeat constructor.
  - reflexivity.
Defined.

End statistics_laws.

(** ** More on the pipelines *)

Section pipeline_laws.
Import AutoLens PriorPassing Chains.
Local Open Scope string_scope.
Local Open Scope list_scope.

(** A call returns with the observation [b] when it evaluates to a return
    on which [f] computes [b]. *)
Lemma call_returns_eq {A B} (m : M A) (h : loc -> list string)
    (f : A -> State -> B) (b : B) :
  match call m h with
  | Returns a s => Some (f a s)
  | Raises _ _ => None
  end = Some b ->
  exists a s, call m h = Returns a s /\ f a s = b.
Proof.
  intros Hrun. destruct (call m h) as [a s | e s]; [| discriminate].
  injection Hrun as Hb. exists a, s. split; [reflexivity | exact Hb].
Qed.

Lemma existsb_earlier_name (earlier later : list Phase) (name : string) :
  existsb (fun q => String.eqb (phase_name q) name) earlier = true ->
  exists m q,
    (m < length earlier)%nat
    /\ (earlier ++ later) !! m = Some q /\ phase_name q = name.
Proof.
  intros H. apply existsb_exists in H as (q & Hq & Hname).
  apply String.eqb_eq in Hname.
  apply list_elem_of_In, list_elem_of_lookup in Hq as [m Hm].
  exists m, q.
  pose proof (lookup_lt_Some _ _ _ Hm) as Hlt.
  split; [exact Hlt | split; [| exact Hname]].
  rewrite lookup_app_l by exact Hlt. exact Hm.
Qed.

Lemma self_contained_from_sound (later earlier : list Phase) :
  self_contained_from earlier later = true ->
  forall n p b,
    later !! n = Some p -> In b (reads p) ->
    resolves_in_chain (earlier ++ later) (length earlier + n) b.
Proof.
  revert earlier.
  induction later as [| p0 later IH]; intros earlier Hcheck n p b Hn Hb.
  - discriminate.
  - simpl in Hcheck. apply andb_prop in Hcheck as [Hhere Hrest].
    destruct n as [| n]; simpl in Hn.
    + injection Hn as ->. rewrite Nat.add_0_r.
      rewrite forallb_forall in Hhere. specialize (Hhere b Hb).
      destruct b as [id | name | |]; simpl in *.
      * apply existsb_earlier. exact Hhere.
      * apply existsb_earlier_name. exact Hhere.
      * destruct earlier; [discriminate | simpl; lia].
      * discriminate.
    + specialize (IH (earlier ++ [p0]) Hrest n p b Hn Hb).
      rewrite <- app_assoc in IH. simpl in IH.
      rewrite length_app in IH. simpl in IH.
      replace (length earlier + S n)%nat with (length earlier + 1 + n)%nat
        by lia.
      exact IH.
Qed.

Lemma self_contained_check (cs : list Phase) :
  self_contained_from [] cs = true -> self_contained cs.
Proof.
  intros Hcheck n p b Hn Hb.
  exact (self_contained_from_sound cs [] Hcheck n p b Hn Hb).
Qed.


Lemma distinct_names_check (names : list string) :
  distinct_names names = true -> NoDup names.
Proof.
  induction names as [| x names IH]; intros H; [constructor |].
  simpl in H. apply andb_prop in H as [Hx Hrest].
  constructor; [| exact (IH Hrest)].
  intros Hin. apply list_elem_of_In in Hin.
  apply negb_true_iff in Hx.
  assert (Hex : existsb (String.eqb x) names = true).
  { apply existsb_exists. exists x. split; [exact Hin |].
    apply String.eqb_refl. }
  congruence.
Qed.

(** *** Names *)

Lemma names_distinct_check (p : Pipeline) (s : State) :
  distinct_names (map phase_name (constructed s)) = true ->
  NoDup (map phase_name (constructed s)).
Proof. apply distinct_names_check. Qed.

Ltac by_check_of lem :=
  apply (call_returns_with _ _ _ _ lem); vm_compute; reflexivity.

(** Steps over the call into path_util that opens the two older
    pipelines. *)
Ltac over_folders folders phase_folders h :=
  unfold call; unfold bind at 1; unfold on_heap at 1;
  cbn [heap constructed];
  destruct (folders phase_folders _ h) as [?phase_folders' ?h'].

(** X12: in each of the six make_pipeline functions the phases built carry
    pairwise distinct names, so a result looked up by phase name
    (results.from_phase) is that of one phase only. *)
Theorem phase_names_are_distinct :
  (forall tagger include_shear pixelization regularization l h,
      exists p s',
        call (simple_lens_sie__source_inversion.make_pipeline tagger
                include_shear pixelization regularization (PyList l)) h
        = Returns p s'
        /\ NoDup (map phase_name (constructed s')))
  /\ (forall namer folders phase_folders h,
      exists p s',
        call (simple_lens_sersic_sie_shear_source_sersic.make_pipeline namer
                folders phase_folders) h
        = Returns p s'
        /\ NoDup (map phase_name (constructed s')))
  /\ (forall namer folders pl_fix_lens_light phase_folders h,
      exists p s',
        call (with_lens_light_lens_sersic_sie_shear_source_inversion.make_pipeline
                namer folders pl_fix_lens_light phase_folders) h
        = Returns p s'
        /\ NoDup (map phase_name (constructed s')))
  /\ (forall namer pl_fix_lens_light pl_hyper_galaxies pl_pixelization
             pl_regularization l h,
      exists p s',
        call (hyper_lens_sersic_sie_shear_source_inversion.make_pipeline namer
                pl_fix_lens_light pl_hyper_galaxies pl_pixelization
                pl_regularization (PyList l)) h
        = Returns p s'
        /\ NoDup (map phase_name (constructed s')))
  /\ (forall setup l h,
      exists p s',
        call (advanced_lens_bulge_disk_sie__source_sersic.make_pipeline setup
                (PyList l)) h
        = Returns p s'
        /\ NoDup (map phase_name (constructed s')))
  /\ (forall set_light_type setup l h,
      exists p s',
        call (advanced_lens_gaussians_sie__source.make_pipeline set_light_type
                setup (PyList l)) h
        = Returns p s'
        /\ NoDup (map phase_name (constructed s'))).
Proof.
  split; [| split; [| split; [| split; [| split]]]].
  - intros tagger [] pixelization regularization l h;
      by_check_of names_distinct_check.
  - intros namer folders phase_folders h.
    apply (call_returns_with _ _ _ _ names_distinct_check).
    unfold simple_lens_sersic_sie_shear_source_sersic.make_pipeline.
    over_folders folders phase_folders h. vm_compute. reflexivity.
  - intros namer folders pl_fix_lens_light phase_folders h.
    apply (call_returns_with _ _ _ _ names_distinct_check).
    unfold with_lens_light_lens_sersic_sie_shear_source_inversion.make_pipeline.
    over_folders folders phase_folders h.
    destruct pl_fix_lens_light; vm_compute; reflexivity.
  - intros namer [] [] pl_pixelization pl_regularization l h;
      by_check_of names_distinct_check.
  - intros [g [st tni ns llc llbo almc lmc] lt] l h.
    destruct ns, llc, llbo, almc, lmc; by_check_of names_distinct_check.
  - intros set_light_type setup l h.
    apply (call_returns_with _ _ _ _ names_distinct_check).
    unfold call, advanced_lens_gaussians_sie__source.make_pipeline.
    destruct (set_light_type setup "gaussians")
      as [[gt hg his hbn] src [lt das abc aba abp]].
    destruct hg, das, abc, aba, abp; vm_compute; reflexivity.
Qed.

Lemma passes_all_check (k : nat) (p : Pipeline) (s : State) :
  same_names (map phase_name (phases p)) (map phase_name (constructed s))
  && Nat.eqb (length (phases p)) k = true ->
  map phase_name (phases p) = map phase_name (constructed s)
  /\ length (phases p) = k.
Proof.
  intros H. apply andb_prop in H as [Hnames Hlen]. split.
  - apply same_names_eq. exact Hnames.
  - apply Nat.eqb_eq. exact Hlen.
Qed.

(** X13: apart from the from_initialize inversion pipeline, every
    make_pipeline hands each phase it builds to the pipeline object, in the
    order built: three phases in the two simple pipelines, two in the hyper
    pipeline, four in the bulge-disk pipeline and one in the gaussians
    pipeline. *)
Theorem every_built_phase_is_passed :
  (forall tagger include_shear pixelization regularization l h,
      exists p s',
        call (simple_lens_sie__source_inversion.make_pipeline tagger
                include_shear pixelization regularization (PyList l)) h
        = Returns p s'
        /\ map phase_name (phases p) = map phase_name (constructed s')
        /\ length (phases p) = 3%nat)
  /\ (forall namer folders phase_folders h,
      exists p s',
        call (simple_lens_sersic_sie_shear_source_sersic.make_pipeline namer
                folders phase_folders) h
        = Returns p s'
        /\ map phase_name (phases p) = map phase_name (constructed s')
        /\ length (phases p) = 3%nat)
  /\ (forall namer pl_fix_lens_light pl_hyper_galaxies pl_pixelization
             pl_regularization l h,
      exists p s',
        call (hyper_lens_sersic_sie_shear_source_inversion.make_pipeline namer
                pl_fix_lens_light pl_hyper_galaxies pl_pixelization
                pl_regularization (PyList l)) h
        = Returns p s'
        /\ map phase_name (phases p) = map phase_name (constructed s')
        /\ length (phases p) = 2%nat)
  /\ (forall setup l h,
      exists p s',
        call (advanced_lens_bulge_disk_sie__source_sersic.make_pipeline setup
                (PyList l)) h
        = Returns p s'
        /\ map phase_name (phases p) = map phase_name (constructed s')
        /\ length (phases p) = 4%nat)
  /\ (forall set_light_type setup l h,
      exists p s',
        call (advanced_lens_gaussians_sie__source.make_pipeline set_light_type
                setup (PyList l)) h
        = Returns p s'
        /\ map phase_name (phases p) = map phase_name (constructed s')
        /\ length (phases p) = 1%nat).
Proof.
  split; [| split; [| split; [| split]]].
  - intros tagger [] pixelization regularization l h;
      by_check_of (passes_all_check 3).
  - intros namer folders phase_folders h.
    apply (call_returns_with _ _ _ _ (passes_all_check 3)).
    unfold simple_lens_sersic_sie_shear_source_sersic.make_pipeline.
    over_folders folders phase_folders h. vm_compute. reflexivity.
  - intros namer [] [] pl_pixelization pl_regularization l h;
      by_check_of (passes_all_check 2).
  - intros [g [st tni ns llc llbo almc lmc] lt] l h.
    destruct ns, llc, llbo, almc, lmc; by_check_of (passes_all_check 4).
  - intros set_light_type setup l h.
    apply (call_returns_with _ _ _ _ (passes_all_check 1)).
    unfold call, advanced_lens_gaussians_sie__source.make_pipeline.
    destruct (set_light_type setup "gaussians")
      as [[gt hg his hbn] src [lt das abc aba abp]].
    destruct hg, das, abc, aba, abp; vm_compute; reflexivity.
Qed.

(** *** Which pipelines stand on their own *)




Ltac run_calls :=
  cbv beta iota zeta delta
    [call bind ret list_append construct on_heap heap constructed
     result_of extend_with phase_id phase_name phase_folders model
     pass_priors modify_image extension class_pass_priors
     class_modify_image PipelineDataset PipelineImaging phases
     pipeline_name].

Lemma two_pipelines_check (r : Pipeline * Pipeline) (s : State) :
  self_contained_from [] (constructed s)
  && distinct_names (map phase_name (constructed s))
  && Nat.eqb (length (constructed s)) 6 = true ->
  self_contained (constructed s)
  /\ NoDup (map phase_name (constructed s))
  /\ length (constructed s) = 6%nat.
Proof.
  intros H. apply andb_prop in H as [H Hlen].
  apply andb_prop in H as [Hself Hnames].
  split; [apply self_contained_check, Hself |].
  split; [apply distinct_names_check, Hnames | apply Nat.eqb_eq, Hlen].
Qed.

(** X15: the from_initialize inversion pipeline fits behind the simple
    lens-light pipeline.  When the two make_pipeline functions are called
    one after the other, the six phases carry distinct names and every
    result a phase reads, the foreign
    'phase_3_lens_sersic_sie_shear_source_sersic' of the inversion pipeline
    included, is that of a phase built before it. *)
Theorem inversion_pipeline_fits_behind_simple_pipeline :
  forall namer folders namer' folders' pl_fix_lens_light
         phase_folders phase_folders' h,
    exists r s',
      call (initialize_then_inversion namer folders namer' folders'
              pl_fix_lens_light phase_folders phase_folders') h
      = Returns r s'
      /\ self_contained (constructed s')
      /\ NoDup (map phase_name (constructed s'))
      /\ length (constructed s') = 6%nat.
Proof.
  intros namer folders namer' folders' pl_fix_lens_light
    phase_folders phase_folders' h.
  apply (call_returns_with _ _ _ _ two_pipelines_check).
  unfold initialize_then_inversion,
    simple_lens_sersic_sie_shear_source_sersic.make_pipeline,
    with_lens_light_lens_sersic_sie_shear_source_inversion.make_pipeline.
  run_calls.
  destruct (folders phase_folders _ h) as [pf1 h1].
  destruct (folders' phase_folders' _ h1) as [pf2 h2].
  destruct pl_fix_lens_light; vm_compute; reflexivity.
Qed.

(** *** The phase_folders list *)

Ltac at_the_list :=
  repeat (rewrite fn_lookup_insert); rewrite <- ?app_assoc; reflexivity.

Ltac at_other_lists :=
  intros l' Hl'; repeat (rewrite fn_lookup_insert_ne by congruence);
  reflexivity.

(** One call of the simple inversion pipeline, from any state. *)
Lemma simple_inversion_appends tagger include_shear pixelization
    regularization (l : loc) (s : State) :
  exists p s',
    simple_lens_sie__source_inversion.make_pipeline tagger include_shear
      pixelization regularization (PyList l) s
    = Returns p s'
    /\ heap s' l
       = heap s l ++ ["pipeline__sie__source_inversion";
                      tagger include_shear pixelization regularization]
    /\ (forall l', l' <> l -> heap s' l' = heap s l')
    /\ Forall (fun q => phase_folders q = PyList l) (phases p).
Proof.
  unfold simple_lens_sie__source_inversion.make_pipeline. run_calls.
  eexists _, _. split; [reflexivity |]. cbn [heap phases].
  split; [at_the_list |]. split; [at_other_lists |]. repeat constructor.
Qed.

(** X16: make_pipeline is not idempotent on its phase_folders.  Called
    twice with one and the same list, it leaves the pipeline name and tag
    in it twice, and that one list is what every phase of both pipelines
    was given as its phase_folders argument.  (What a phase does with the
    argument is the library's; the runner writes a new list for every
    call.) *)
Theorem same_list_twice_is_extended_twice :
  forall tagger include_shear pixelization regularization l h,
    exists first second s',
      call (make_pipeline_twice tagger include_shear pixelization
              regularization (PyList l)) h
      = Returns (first, second) s'
      /\ heap s' l
         = h l ++ ["pipeline__sie__source_inversion";
                   tagger include_shear pixelization regularization;
                   "pipeline__sie__source_inversion";
                   tagger include_shear pixelization regularization]
      /\ Forall (fun q => phase_folders q = PyList l)
           (phases first ++ phases second).
Proof.
  intros tagger include_shear pixelization regularization l h.
  unfold call, make_pipeline_twice, bind.
  destruct (simple_inversion_appends tagger include_shear pixelization
              regularization l {| heap := h; constructed := [] |})
    as (first & s1 & Hrun1 & Hheap1 & _ & Hfolders1).
  destruct (simple_inversion_appends tagger include_shear pixelization
              regularization l s1)
    as (second & s2 & Hrun2 & Hheap2 & _ & Hfolders2).
  rewrite Hrun1, Hrun2. exists first, second, s2.
  split; [reflexivity |]. split.
  - rewrite Hheap2, Hheap1. cbn [heap]. rewrite <- app_assoc. reflexivity.
  - apply Forall_app. split; assumption.
Qed.

(** X17: the hyper inversion pipeline appends one string to the list it is
    given as phase_folders, its tagged pipeline name; no other list
    changes, and both phases hold that list. *)
Theorem hyper_pipeline_appends_its_tagged_name :
  forall namer pl_fix_lens_light pl_hyper_galaxies pl_pixelization
         pl_regularization l h,
    exists p s',
      call (hyper_lens_sersic_sie_shear_source_inversion.make_pipeline namer
              pl_fix_lens_light pl_hyper_galaxies pl_pixelization
              pl_regularization (PyList l)) h
      = Returns p s'
      /\ heap s' l = h l ++ [pipeline_name p]
      /\ pipeline_name p
         = namer "pipeline_inv__lens_sersic_sie_shear_source_inversion"
             pl_fix_lens_light pl_pixelization pl_regularization
      /\ (forall l', l' <> l -> heap s' l' = h l')
      /\ Forall (fun q => phase_folders q = PyList l) (phases p).
Proof.
  intros namer pl_fix_lens_light pl_hyper_galaxies pl_pixelization
    pl_regularization l h.
  unfold hyper_lens_sersic_sie_shear_source_inversion.make_pipeline.
  run_calls.
  eexists _, _. split; [reflexivity |]. cbn [heap phases pipeline_name].
  split; [at_the_list |]. split; [reflexivity |].
  split; [at_other_lists |]. repeat constructor.
Qed.

(** X18: the two older pipelines leave phase_folders to the library.  For
    any phase_folders, None included, they return; the lists are as
    path_util.phase_folders_from_phase_folders_and_pipeline_name left
    them, and every phase holds what that function handed back. *)
Theorem older_pipelines_delegate_phase_folders :
  (forall namer folders phase_folders h,
      exists p s',
        call (simple_lens_sersic_sie_shear_source_sersic.make_pipeline namer
                folders phase_folders) h
        = Returns p s'
        /\ heap s'
           = snd (folders phase_folders
                    (namer "pl__lens_sersic_sie_shear_source_x1_sersic") h)
        /\ Forall
             (fun q =>
                AutoLens.phase_folders q
                = fst (folders phase_folders
                         (namer "pl__lens_sersic_sie_shear_source_x1_sersic")
                         h))
             (constructed s'))
  /\ (forall namer folders pl_fix_lens_light phase_folders h,
      exists p s',
        call (with_lens_light_lens_sersic_sie_shear_source_inversion.make_pipeline
                namer folders pl_fix_lens_light phase_folders) h
        = Returns p s'
        /\ heap s'
           = snd (folders phase_folders
                    (namer
                       "pipeline_inv__lens_sersic_sie_shear_source_inversion"
                       pl_fix_lens_light) h)
        /\ Forall
             (fun q =>
                AutoLens.phase_folders q
                = fst (folders phase_folders
                         (namer
                            "pipeline_inv__lens_sersic_sie_shear_source_inversion"
                            pl_fix_lens_light) h))
             (constructed s')).
Proof.
  split.
  - intros namer folders phase_folders h.
    unfold simple_lens_sersic_sie_shear_source_sersic.make_pipeline.
    run_calls.
    destruct (folders phase_folders _ h) as [pf1 h1].
    eexists _, _. split; [reflexivity |]. cbn [heap constructed fst snd].
    split; [reflexivity | repeat constructor].
  - intros namer folders pl_fix_lens_light phase_folders h.
    unfold with_lens_light_lens_sersic_sie_shear_source_inversion.make_pipeline.
    run_calls.
    destruct (folders phase_folders _ h) as [pf1 h1].
    eexists _, _. split; [reflexivity |]. cbn [heap constructed fst snd].
    split; [reflexivity | repeat constructor].
Qed.

(** *** What the flags decide *)









(** X22: of the model of the one phase of the gaussians pipeline the
    setup, as set_light_type left it, decides the bulge, the disk and the
    hyper galaxy of the lens and nothing else.  The disk is an EllipticalSersic when disk_as_sersic is set and
    an EllipticalExponential when not; the bulge is an EllipticalSersic
    whose centre, axis_ratio and phi are each that of the disk of the same
    lens when the matching align_bulge_disk switch is set and left to the
    priors of the bulge when not; with hyper_galaxies the hyper galaxy is
    af.last.hyper_combined.instance.galaxies.lens.hyper_galaxy with the
    noise factor of af.last.hyper_combined.model, and without it is None.
    Outside galaxies.lens.bulge, galaxies.lens.disk and
    galaxies.lens.hyper_galaxy the bindings are the same six for every
    setup: the caller's redshift, and mass, shear, source, hyper_image_sky
    and hyper_background_noise as instances of af.last.  (The setup also
    gives the tags appended to phase_folders and the switches of the hyper
    phases the phase is extended with.) *)
Theorem gaussians_setup_decides_the_light :
  forall set_light_type setup l h,
    exists p s',
      call (advanced_lens_gaussians_sie__source.make_pipeline set_light_type
              setup (PyList l)) h
      = Returns p s'
      /\ effective_source_at 0 "galaxies.lens.disk" (constructed s')
         = Some (ModelClass
                   (if disk_as_sersic (light (set_light_type setup "gaussians"))
                    then "al.lp.EllipticalSersic"
                    else "al.lp.EllipticalExponential"))
      /\ effective_source_at 0 "galaxies.lens.bulge" (constructed s')
         = Some (ModelClass "al.lp.EllipticalSersic")
      /\ effective_source_at 0 "galaxies.lens.bulge.centre" (constructed s')
         = Some (if align_bulge_disk_centre
                      (light (set_light_type setup "gaussians"))
                 then getattr "lens" "disk.centre"
                 else ModelClass "al.lp.EllipticalSersic")
      /\ effective_source_at 0 "galaxies.lens.bulge.axis_ratio"
           (constructed s')
         = Some (if align_bulge_disk_axis_ratio
                      (light (set_light_type setup "gaussians"))
                 then getattr "lens" "disk.axis_ratio"
                 else ModelClass "al.lp.EllipticalSersic")
      /\ effective_source_at 0 "galaxies.lens.bulge.phi" (constructed s')
         = Some (if align_bulge_disk_phi
                      (light (set_light_type setup "gaussians"))
                 then getattr "lens" "disk.phi"
                 else ModelClass "al.lp.EllipticalSersic")
      /\ effective_source_at 0 "galaxies.lens.hyper_galaxy" (constructed s')
         = Some (if hyper_galaxies
                      (general (set_light_type setup "gaussians"))
                 then read AfLast
                        "hyper_combined.instance.galaxies.lens.hyper_galaxy"
                 else PyNoneValue)
      /\ effective_source_at 0 "galaxies.lens.hyper_galaxy.noise_factor"
           (constructed s')
         = Some (if hyper_galaxies
                      (general (set_light_type setup "gaussians"))
                 then read AfLast
                        "hyper_combined.model.galaxies.lens.hyper_galaxy.noise_factor"
                 else PyNoneValue)
      /\ bindings_outside
           ["galaxies.lens.bulge"; "galaxies.lens.disk";
            "galaxies.lens.hyper_galaxy"] (constructed s')
         = [[assign "galaxies.lens.redshift" (CallerValue "redshift_lens");
             assign "galaxies.lens.mass"
               (read AfLast "instance.galaxies.lens.mass");
             assign "galaxies.lens.shear"
               (read AfLast "instance.galaxies.lens.shear");
             assign "galaxies.source"
               (read AfLast "instance.galaxies.source");
             assign "hyper_image_sky"
               (read AfLast
                  "hyper_combined.instance.optional.hyper_image_sky");
             assign "hyper_background_noise"
               (read AfLast
                  "hyper_combined.instance.optional.hyper_background_noise")]].
Proof.
  intros set_light_type setup l h.
  destruct (call_returns_eq
              (advanced_lens_gaussians_sie__source.make_pipeline
                 set_light_type setup (PyList l)) h
              (fun _ s =>
                 (effective_source_at 0 "galaxies.lens.disk" (constructed s),
                  effective_source_at 0 "galaxies.lens.bulge" (constructed s),
                  effective_source_at 0 "galaxies.lens.bulge.centre"
                    (constructed s),
                  effective_source_at 0 "galaxies.lens.bulge.axis_ratio"
                    (constructed s),
                  effective_source_at 0 "galaxies.lens.bulge.phi"
                    (constructed s),
                  effective_source_at 0 "galaxies.lens.hyper_galaxy"
                    (constructed s),
                  effective_source_at 0
                    "galaxies.lens.hyper_galaxy.noise_factor" (constructed s),
                  bindings_outside
                    ["galaxies.lens.bulge"; "galaxies.lens.disk";
                     "galaxies.lens.hyper_galaxy"] (constructed s)))
              (Some (ModelClass
                       (if disk_as_sersic
                             (light (set_light_type setup "gaussians"))
                        then "al.lp.EllipticalSersic"
                        else "al.lp.EllipticalExponential")),
               Some (ModelClass "al.lp.EllipticalSersic"),
               Some (if align_bulge_disk_centre
                          (light (set_light_type setup "gaussians"))
                     then getattr "lens" "disk.centre"
                     else ModelClass "al.lp.EllipticalSersic"),
               Some (if align_bulge_disk_axis_ratio
                          (light (set_light_type setup "gaussians"))
                     then getattr "lens" "disk.axis_ratio"
                     else ModelClass "al.lp.EllipticalSersic"),
               Some (if align_bulge_disk_phi
                          (light (set_light_type setup "gaussians"))
                     then getattr "lens" "disk.phi"
                     else ModelClass "al.lp.EllipticalSersic"),
               Some (if hyper_galaxies
                          (general (set_light_type setup "gaussians"))
                     then read AfLast
                            "hyper_combined.instance.galaxies.lens.hyper_galaxy"
                     else PyNoneValue),
               Some (if hyper_galaxies
                          (general (set_light_type setup "gaussians"))
                     then read AfLast
                            "hyper_combined.model.galaxies.lens.hyper_galaxy.noise_factor"
                     else PyNoneValue),
               [[assign "galaxies.lens.redshift" (CallerValue "redshift_lens");
                 assign "galaxies.lens.mass"
                   (read AfLast "instance.galaxies.lens.mass");
                 assign "galaxies.lens.shear"
                   (read AfLast "instance.galaxies.lens.shear");
                 assign "galaxies.source"
                   (read AfLast "instance.galaxies.source");
                 assign "hyper_image_sky"
                   (read AfLast
                      "hyper_combined.instance.optional.hyper_image_sky");
                 assign "hyper_background_noise"
                   (read AfLast
                      "hyper_combined.instance.optional.hyper_background_noise")]]))
    as (p & s' & Hrun & Hobs).
  { unfold call, advanced_lens_gaussians_sie__source.make_pipeline.
    destruct (set_light_type setup "gaussians")
      as [[gt hg his hbn] src [lt das abc aba abp]].
    destruct hg, das, abc, aba, abp; vm_compute; reflexivity. }
  injection Hobs as H1 H2 H3 H4 H5 H6 H7 H8. exists p, s'.
  repeat (split; [assumption |]). assumption.
Qed.

(** *** Failures *)

(** X24: like the simple inversion pipeline, the three other make_pipeline
    functions that append to phase_folders themselves raise AttributeError
    when it is None, before any phase is built and with every list as it
    was. *)
Theorem appending_pipelines_raise_on_none :
  (forall namer pl_fix_lens_light pl_hyper_galaxies pl_pixelization
          pl_regularization h,
      call (hyper_lens_sersic_sie_shear_source_inversion.make_pipeline namer
              pl_fix_lens_light pl_hyper_galaxies pl_pixelization
              pl_regularization PyNone) h
      = Raises AttributeError {| heap := h; constructed := [] |})
  /\ (forall setup h,
      call (advanced_lens_bulge_disk_sie__source_sersic.make_pipeline setup
              PyNone) h
      = Raises AttributeError {| heap := h; constructed := [] |})
  /\ (forall set_light_type setup h,
      call (advanced_lens_gaussians_sie__source.make_pipeline set_light_type
              setup PyNone) h
      = Raises AttributeError {| heap := h; constructed := [] |}).
Proof. split; [| split]; reflexivity. Qed.

End pipeline_laws.
